(** * JobFit Finder front end: submission form and results view

    A shallow embedding of the two client components of the repository,
    [frontend/app/components/UploadForm.tsx] and
    [frontend/app/components/ResultsList.tsx] with its host page
    [frontend/app/results/page.tsx], followed by the properties proved of
    them.

    Conventions.
    - A JavaScript string is the list of its UTF-16 code units.
    - A value that reached the program through [JSON.parse] is a [JValue];
      a number is kept as the exact decimal [m * 10^e] of its literal.
    - React state is a record; an event handler is a function on that
      record; what a component returns is a small view datatype holding
      exactly the parts that depend on the props. *)

From Stdlib Require Import String Ascii List NArith ZArith Bool Lia.
Import ListNotations.

Set Warnings "-register-all".

(* ================================================================== *)
(** ** The JavaScript platform: strings, values, [JSON.parse]          *)
(* ================================================================== *)

Module Js.

(** *** Strings *)

Definition jsstring := list N.

(** Code units of an ASCII literal of the source text. *)
Definition lit (s : string) : jsstring :=
  map N_of_ascii (list_ascii_of_string s).

(** The same, with every apostrophe standing for a double quote: a way to
    write JSON text in examples. *)
Definition json_lit (s : string) : jsstring :=
  map (fun c => if (c =? 39)%N then 34%N else c) (lit s).

Fixpoint str_eqb (a b : jsstring) : bool :=
  match a, b with
  | [], [] => true
  | x :: a', y :: b' => (x =? y)%N && str_eqb a' b'
  | _, _ => false
  end.

(** ECMAScript [WhiteSpace] and [LineTerminator] code points, the set that
    [String.prototype.trim] strips. *)
Definition is_white_space (c : N) : bool :=
  ((c =? 0x9) || (c =? 0xA) || (c =? 0xB) || (c =? 0xC) || (c =? 0xD)
   || (c =? 0x20) || (c =? 0xA0) || (c =? 0x1680)
   || ((0x2000 <=? c) && (c <=? 0x200A))
   || (c =? 0x2028) || (c =? 0x2029) || (c =? 0x202F) || (c =? 0x205F)
   || (c =? 0x3000) || (c =? 0xFEFF))%N.

Fixpoint trimStart (s : jsstring) : jsstring :=
  match s with
  | c :: t => if is_white_space c then trimStart t else s
  | [] => []
  end.

Definition trimEnd (s : jsstring) : jsstring := rev (trimStart (rev s)).

Definition trim (s : jsstring) : jsstring := trimEnd (trimStart s).

Fixpoint startsWith (s sub : jsstring) : bool :=
  match sub, s with
  | [], _ => true
  | x :: sub', y :: s' => (x =? y)%N && startsWith s' sub'
  | _ :: _, [] => false
  end.

(** [s.includes(sub)]: [sub] occurs in [s] at some position. *)
Fixpoint includes (s sub : jsstring) : bool :=
  startsWith s sub ||
  match s with
  | [] => false
  | _ :: t => includes t sub
  end.

(** [arr.includes(x)] on an array of strings (strict equality). *)
Definition array_includes (arr : list jsstring) (x : jsstring) : bool :=
  existsb (str_eqb x) arr.

(** Truthiness of a string: non-empty. *)
Definition str_truthy (s : jsstring) : bool :=
  match s with [] => false | _ :: _ => true end.

(** *** Values *)

Inductive JValue : Type :=
| JUndefined
| JNull
| JBool (b : bool)
| JNum (m e : Z)                        (* the number literal m * 10^e *)
| JStr (s : jsstring)
| JArr (elems : list JValue)
| JObj (members : list (jsstring * JValue)).

(** Conversion of a decimal literal to a double rounds to nearest, ties to
    even.  The least positive double is 2^-1074, so the literal becomes
    (plus or minus) zero exactly when its magnitude is at most 2^-1075. *)
Definition num_is_zero (m e : Z) : bool :=
  ((m =? 0) || ((e <? 0) && (Z.abs m * 2 ^ 1075 <=? 10 ^ (- e))))%Z.

(** [ToBoolean].  A JSON number is never NaN. *)
Definition truthy (v : JValue) : bool :=
  match v with
  | JUndefined | JNull => false
  | JBool b => b
  | JNum m e => negb (num_is_zero m e)
  | JStr s => str_truthy s
  | JArr _ | JObj _ => true
  end.

(** Errors created by the engine itself, not by the program. *)
Inductive EngineError : Type :=
| JSON_SyntaxError (text : jsstring)    (* JSON.parse / response.json() *)
| TypeError_null_read (prop : jsstring) (* property read on null or undefined *)
| TypeError_not_a_function (prop : jsstring)
| TypeError_fetch.                      (* fetch() rejected: network failure *)

Inductive Completion (A : Type) : Type :=
| Normal (a : A)
| Throw (err : EngineError).
Arguments Normal {A} a.
Arguments Throw {A} err.

Definition bind {A B} (c : Completion A) (k : A -> Completion B) : Completion B :=
  match c with
  | Normal a => k a
  | Throw err => Throw err
  end.

(** Own data property of a parsed object; a repeated key keeps its last
    value, as [JSON.parse] defines. *)
Fixpoint own_property (members : list (jsstring * JValue)) (k : jsstring)
  : option JValue :=
  match members with
  | [] => None
  | (k', v) :: rest =>
      match own_property rest k with
      | Some v' => Some v'
      | None => if str_eqb k' k then Some v else None
      end
  end.

(** [v.k] for a property name [k] that no built-in prototype defines
    (the program reads [detail], [message], [results], [job], [id]). *)
Definition get (v : JValue) (k : jsstring) : Completion JValue :=
  match v with
  | JUndefined | JNull => Throw (TypeError_null_read k)
  | JObj members =>
      match own_property members k with
      | Some x => Normal x
      | None => Normal JUndefined
      end
  | _ => Normal JUndefined
  end.

(** [v?.k], same restriction on [k]. *)
Definition get_optional (v : JValue) (k : jsstring) : Completion JValue :=
  match v with
  | JUndefined | JNull => Normal JUndefined
  | _ => get v k
  end.

(** [v.length]: strings and arrays have it built in. *)
Definition get_length (v : JValue) : Completion JValue :=
  match v with
  | JStr s => Normal (JNum (Z.of_nat (length s)) 0)
  | JArr l => Normal (JNum (Z.of_nat (length l)) 0)
  | _ => get v (lit "length")
  end.

(** [x === 0]. *)
Definition strict_equals_zero (x : JValue) : bool :=
  match x with
  | JNum m e => num_is_zero m e
  | _ => false
  end.

(** *** [JSON.parse] *)

Definition is_json_ws (c : N) : bool :=
  ((c =? 0x20) || (c =? 0x9) || (c =? 0xA) || (c =? 0xD))%N.

Fixpoint skip_ws (s : jsstring) : jsstring :=
  match s with
  | c :: t => if is_json_ws c then skip_ws t else s
  | [] => []
  end.

Definition is_digit (c : N) : bool := ((48 <=? c) && (c <=? 57))%N.

Definition digit_value (c : N) : Z := Z.of_N (c - 48).

(** Reads a possibly empty run of digits: accumulated value, number of
    digits read, rest. *)
Fixpoint read_digits (s : jsstring) (acc count : Z) : Z * Z * jsstring :=
  match s with
  | c :: t =>
      if is_digit c then read_digits t (acc * 10 + digit_value c) (count + 1)
      else (acc, count, s)
  | [] => (acc, count, [])
  end.

(** Integer part: a single [0], or a non-zero digit followed by digits. *)
Definition read_int (s : jsstring) : option (Z * jsstring) :=
  match s with
  | c :: t =>
      if (c =? 48)%N then Some (0%Z, t)
      else if is_digit c then
        let '(m, _, rest) := read_digits t (digit_value c) 1 in Some (m, rest)
      else None
  | [] => None
  end.

(** Optional fraction: [.] and at least one digit. *)
Definition read_frac (m : Z) (s : jsstring) : option (Z * Z * jsstring) :=
  match s with
  | c :: t =>
      if (c =? 46)%N then
        let '(m', k, rest) := read_digits t m 0 in
        if (k =? 0)%Z then None else Some (m', (- k)%Z, rest)
      else Some (m, 0%Z, s)
  | [] => Some (m, 0%Z, [])
  end.

(** Optional exponent: [e] or [E], an optional sign, at least one digit. *)
Definition read_exp (s : jsstring) : option (Z * jsstring) :=
  match s with
  | c :: t =>
      if ((c =? 101) || (c =? 69))%N then
        let '(negative, t') :=
          match t with
          | d :: u =>
              if (d =? 45)%N then (true, u)
              else if (d =? 43)%N then (false, u)
              else (false, t)
          | [] => (false, t)
          end in
        let '(x, k, rest) := read_digits t' 0 0 in
        if (k =? 0)%Z then None
        else Some (if negative then (- x)%Z else x, rest)
      else Some (0%Z, s)
  | [] => Some (0%Z, [])
  end.

Definition parse_number (s : jsstring) : option (JValue * jsstring) :=
  let '(negative, s1) :=
    match s with
    | c :: t => if (c =? 45)%N then (true, t) else (false, s)
    | [] => (false, s)
    end in
  match read_int s1 with
  | None => None
  | Some (m, s2) =>
      match read_frac m s2 with
      | None => None
      | Some (m', e1, s3) =>
          match read_exp s3 with
          | None => None
          | Some (e2, s4) =>
              Some (JNum (if negative then (- m')%Z else m') (e1 + e2), s4)
          end
      end
  end.

Definition hex_value (c : N) : option N :=
  (if (48 <=? c) && (c <=? 57) then Some (c - 48)
   else if (65 <=? c) && (c <=? 70) then Some (c - 55)
   else if (97 <=? c) && (c <=? 102) then Some (c - 87)
   else None)%N.

Definition hex4 (a b c d : N) : option N :=
  match hex_value a, hex_value b, hex_value c, hex_value d with
  | Some x, Some y, Some z, Some w => Some (((x * 16 + y) * 16 + z) * 16 + w)%N
  | _, _, _, _ => None
  end.

(** The single-character escapes after a backslash: quote, backslash,
    slash, and the letters b f n r t. *)
Definition unescape (c : N) : option N :=
  (if c =? 34 then Some 34
   else if c =? 92 then Some 92
   else if c =? 47 then Some 47
   else if c =? 98 then Some 8
   else if c =? 102 then Some 12
   else if c =? 110 then Some 10
   else if c =? 114 then Some 13
   else if c =? 116 then Some 9
   else None)%N.

(** Body of a string literal, after the opening quote. *)
Fixpoint parse_string_body (s : jsstring) (acc : jsstring)
  : option (jsstring * jsstring) :=
  match s with
  | [] => None
  | c :: t =>
      if (c =? 34)%N then Some (rev acc, t)
      else if (c =? 92)%N then
        match t with
        | [] => None
        | x :: t1 =>
            if (x =? 117)%N then
              match t1 with
              | h1 :: h2 :: h3 :: h4 :: t2 =>
                  match hex4 h1 h2 h3 h4 with
                  | Some u => parse_string_body t2 (u :: acc)
                  | None => None
                  end
              | _ => None
              end
            else
              match unescape x with
              | Some u => parse_string_body t1 (u :: acc)
              | None => None
              end
        end
      else if (c <? 32)%N then None
      else parse_string_body t (c :: acc)
  end.

(** Consumes the keyword tail [w] and yields [v]. *)
Definition expect (w : jsstring) (v : JValue) (s : jsstring)
  : option (JValue * jsstring) :=
  if startsWith s w then Some (v, skipn (length w) s) else None.

(** Recursive descent.  Each nested call is made on a strictly shorter
    input; [fuel] bounds the number of nested calls. *)
Fixpoint parse_value (fuel : nat) (s : jsstring) : option (JValue * jsstring) :=
  match fuel with
  | O => None
  | S fuel' =>
      match s with
      | [] => None
      | c :: t =>
          if (c =? 110)%N then expect (lit "ull") JNull t
          else if (c =? 116)%N then expect (lit "rue") (JBool true) t
          else if (c =? 102)%N then expect (lit "alse") (JBool false) t
          else if (c =? 34)%N then
            match parse_string_body t [] with
            | Some (str, rest) => Some (JStr str, rest)
            | None => None
            end
          else if (c =? 91)%N then
            match skip_ws t with
            | [] => None
            | c' :: t' =>
                if (c' =? 93)%N then Some (JArr [], t')
                else
                  match parse_elements fuel' (c' :: t') [] with
                  | Some (elems, rest) => Some (JArr elems, rest)
                  | None => None
                  end
            end
          else if (c =? 123)%N then
            match skip_ws t with
            | [] => None
            | c' :: t' =>
                if (c' =? 125)%N then Some (JObj [], t')
                else
                  match parse_members fuel' (c' :: t') [] with
                  | Some (members, rest) => Some (JObj members, rest)
                  | None => None
                  end
            end
          else parse_number s
      end
  end

(** Elements of an array; [s] starts at a value. *)
with parse_elements (fuel : nat) (s : jsstring) (acc : list JValue)
  : option (list JValue * jsstring) :=
  match fuel with
  | O => None
  | S fuel' =>
      match parse_value fuel' s with
      | None => None
      | Some (v, rest) =>
          match skip_ws rest with
          | [] => None
          | c :: t =>
              if (c =? 44)%N then parse_elements fuel' (skip_ws t) (v :: acc)
              else if (c =? 93)%N then Some (rev (v :: acc), t)
              else None
          end
      end
  end

(** Members of an object; [s] starts at a key. *)
with parse_members (fuel : nat) (s : jsstring) (acc : list (jsstring * JValue))
  : option (list (jsstring * JValue) * jsstring) :=
  match fuel with
  | O => None
  | S fuel' =>
      match s with
      | [] => None
      | q :: t =>
          if (q =? 34)%N then
            match parse_string_body t [] with
            | None => None
            | Some (k, rest) =>
                match skip_ws rest with
                | [] => None
                | c :: t1 =>
                    if (c =? 58)%N then
                      match parse_value fuel' (skip_ws t1) with
                      | None => None
                      | Some (v, rest') =>
                          match skip_ws rest' with
                          | [] => None
                          | d :: t2 =>
                              if (d =? 44)%N then
                                parse_members fuel' (skip_ws t2) ((k, v) :: acc)
                              else if (d =? 125)%N then
                                Some (rev ((k, v) :: acc), t2)
                              else None
                          end
                      end
                    else None
                end
            end
          else None
      end
  end.

(** [JSON.parse(text)]: one value between optional white space; [None]
    stands for the [SyntaxError] thrown otherwise. *)
Definition JSON_parse (text : jsstring) : option JValue :=
  match parse_value (2 * length text + 2) (skip_ws text) with
  | Some (v, rest) =>
      match skip_ws rest with
      | [] => Some v
      | _ :: _ => None
      end
  | None => None
  end.

(** [s.split(sep)] for a separator of one code unit: the segments between
    its occurrences, empty ones included; the empty string gives one empty
    segment. *)
Fixpoint split_on (sep : N) (s : jsstring) : list jsstring :=
  match s with
  | [] => [[]]
  | c :: t =>
      if (c =? sep)%N then [] :: split_on sep t
      else
        match split_on sep t with
        | seg :: rest => (c :: seg) :: rest
        | [] => [[c]]
        end
  end.

End Js.

Import Js.

(* ================================================================== *)
(** ** The submission component ([components/UploadForm.tsx])          *)
(* ================================================================== *)

Module UploadForm.

(** The browser's [File]: its name, its declared content type and its
    bytes. *)
Record File : Type := {
  name : jsstring;
  type : jsstring;
  bytes : list N
}.

Record FormData : Type := {
  resumeText : jsstring;
  resumeFile : option File;
  desiredJobDescription : jsstring;
  companyJobsUrl : jsstring
}.

(** The [message] of an error object.  [Text] is a string written in the
    program or read from a response body; [ToString v] is [String(v)] for a
    truthy [v] that is not a string; [EngineText] is the wording the engine
    gives one of its own errors. *)
Inductive Message : Type :=
| Text (s : jsstring)
| ToString (v : JValue)
| EngineText (err : EngineError).

Module Errors.
Record FormErrors : Type := {
  resume : option jsstring;
  desiredJobDescription : option jsstring;
  companyJobsUrl : option jsstring;
  submit : option Message
}.

(** [{}] *)
Definition empty : FormErrors :=
  {| resume := None; desiredJobDescription := None;
     companyJobsUrl := None; submit := None |}.

Definition set_resume (x : option jsstring) (e : FormErrors) : FormErrors :=
  {| resume := x; desiredJobDescription := desiredJobDescription e;
     companyJobsUrl := companyJobsUrl e; submit := submit e |}.

Definition set_desiredJobDescription (x : option jsstring) (e : FormErrors)
  : FormErrors :=
  {| resume := resume e; desiredJobDescription := x;
     companyJobsUrl := companyJobsUrl e; submit := submit e |}.

Definition set_companyJobsUrl (x : option jsstring) (e : FormErrors)
  : FormErrors :=
  {| resume := resume e; desiredJobDescription := desiredJobDescription e;
     companyJobsUrl := x; submit := submit e |}.

Definition present {A} (x : option A) : nat :=
  match x with Some _ => 1 | None => 0 end.

(** [Object.keys(e).length] *)
Definition keys_length (e : FormErrors) : nat :=
  present (resume e) + present (desiredJobDescription e)
  + present (companyJobsUrl e) + present (submit e).
End Errors.
Definition FormErrors : Type := Errors.FormErrors.

Inductive InputMode : Type := paste | upload.

(** The four [useState] cells of the component. *)
Record State : Type := {
  formData : FormData;
  errors : FormErrors;
  isLoading : bool;
  inputMode : InputMode
}.

Definition initial : State :=
  {| formData := {| resumeText := []; resumeFile := None;
                    desiredJobDescription := []; companyJobsUrl := [] |};
     errors := Errors.empty;
     isLoading := false;
     inputMode := paste |}.

Definition setFormData (f : FormData -> FormData) (st : State) : State :=
  {| formData := f (formData st); errors := errors st;
     isLoading := isLoading st; inputMode := inputMode st |}.

Definition setErrors (f : FormErrors -> FormErrors) (st : State) : State :=
  {| formData := formData st; errors := f (errors st);
     isLoading := isLoading st; inputMode := inputMode st |}.

Definition setIsLoading (b : bool) (st : State) : State :=
  {| formData := formData st; errors := errors st;
     isLoading := b; inputMode := inputMode st |}.

Definition setInputMode (m : InputMode) (st : State) : State :=
  {| formData := formData st; errors := errors st;
     isLoading := isLoading st; inputMode := m |}.

Definition validTypes : list jsstring :=
  [lit "application/pdf";
   lit "application/vnd.openxmlformats-officedocument.wordprocessingml.document"].

(** [handleFileChange]; the argument is [e.target.files?.[0]]. *)
Definition handleFileChange (file : option File) (st : State) : State :=
  match file with
  | Some f =>
      if negb (array_includes validTypes (type f)) then
        setErrors (Errors.set_resume (Some (lit "Please upload a PDF or DOCX file"))) st
      else
        setErrors (Errors.set_resume None)
          (setFormData (fun prev =>
             {| resumeText := []; resumeFile := Some f;
                desiredJobDescription := desiredJobDescription prev;
                companyJobsUrl := companyJobsUrl prev |}) st)
  | None => st
  end.

(** [onClick] of the button Paste Text. *)
Definition clickPasteText (st : State) : State :=
  setFormData (fun prev =>
    {| resumeText := resumeText prev; resumeFile := None;
       desiredJobDescription := desiredJobDescription prev;
       companyJobsUrl := companyJobsUrl prev |})
    (setInputMode paste st).

(** [onClick] of the button Upload File. *)
Definition clickUploadFile (st : State) : State :=
  setFormData (fun prev =>
    {| resumeText := []; resumeFile := resumeFile prev;
       desiredJobDescription := desiredJobDescription prev;
       companyJobsUrl := companyJobsUrl prev |})
    (setInputMode upload st).

(** [onChange] of the three text inputs. *)
Definition changeResumeText (value : jsstring) (st : State) : State :=
  setFormData (fun prev =>
    {| resumeText := value; resumeFile := resumeFile prev;
       desiredJobDescription := desiredJobDescription prev;
       companyJobsUrl := companyJobsUrl prev |}) st.

Definition changeDesiredJobDescription (value : jsstring) (st : State) : State :=
  setFormData (fun prev =>
    {| resumeText := resumeText prev; resumeFile := resumeFile prev;
       desiredJobDescription := value;
       companyJobsUrl := companyJobsUrl prev |}) st.

Definition changeCompanyJobsUrl (value : jsstring) (st : State) : State :=
  setFormData (fun prev =>
    {| resumeText := resumeText prev; resumeFile := resumeFile prev;
       desiredJobDescription := desiredJobDescription prev;
       companyJobsUrl := value |}) st.

Definition is_some {A} (x : option A) : bool :=
  match x with Some _ => true | None => false end.

(** The request body, a [Record<string, string>]; the base64 text of a file
    is kept as the file it encodes. *)
Inductive BodyValue : Type :=
| Str (s : jsstring)
| Base64 (f : File).

Definition RequestBody := list (jsstring * BodyValue).

Definition requestBody (fd : FormData) : RequestBody :=
  [(lit "desired_job_description", Str (desiredJobDescription fd));
   (lit "company_jobs_url", Str (companyJobsUrl fd))]
  ++ match resumeFile fd with
     | Some f => [(lit "resume_file_base64", Base64 f)]
     | None => [(lit "resume_text", Str (resumeText fd))]
     end.

(** What the awaited calls of [handleSubmit] come back with. *)
Inductive Reply : Type :=
| FileReadFailed                          (* reader.onerror: the promise rejects with an event *)
| FetchFailed                             (* fetch() rejects *)
| Responded (ok : bool) (body : jsstring).

(** What the [try] block of [handleSubmit] ends with. *)
Inductive Thrown : Type :=
| ProgramError (message : Message)        (* throw new Error(message) *)
| Engine (err : EngineError)
| NotAnError.                             (* a rejection value that is not an Error *)

Inductive TryResult : Type :=
| Caught (t : Thrown)
| Stored (results : JValue).              (* setItem("jobResults", JSON.stringify(results)); push("/results") *)

Definition of_completion {A} (c : Completion A) (k : A -> TryResult) : TryResult :=
  match c with
  | Normal a => k a
  | Throw err => Caught (Engine err)
  end.

(** [response.json()] *)
Definition response_json (body : jsstring) : Completion JValue :=
  match JSON_parse body with
  | Some v => Normal v
  | None => Throw (JSON_SyntaxError body)
  end.

(** [new Error(x).message] for a truthy [x]. *)
Definition error_message (x : JValue) : Message :=
  match x with
  | JStr s => Text s
  | _ => ToString x
  end.

(** [errorData.detail?.message] *)
Definition detail_message (errorData : JValue) : Completion JValue :=
  bind (get errorData (lit "detail")) (fun detail =>
    get_optional detail (lit "message")).

Definition try_block (reply : Reply) : TryResult :=
  match reply with
  | FileReadFailed => Caught NotAnError
  | FetchFailed => Caught (Engine TypeError_fetch)
  | Responded false body =>
      of_completion (response_json body) (fun errorData =>
      of_completion (detail_message errorData) (fun message =>
        Caught (ProgramError
          (if truthy message then error_message message
           else Text (lit "Failed to get recommendations")))))
  | Responded true body =>
      of_completion (response_json body) (fun data =>
      of_completion (get data (lit "results")) (fun results =>
        Stored results))
  end.

(** The [catch] clause: [error instanceof Error ? error.message : ...]. *)
Definition catch_message (t : Thrown) : Message :=
  match t with
  | ProgramError m => m
  | Engine err => EngineText err
  | NotAnError => Text (lit "An error occurred. Please try again.")
  end.

(** The host test of [validateForm]. *)
Definition isSupported (hostname : jsstring) : bool :=
  includes hostname (lit "greenhouse.io")
  || includes hostname (lit "lever.co")
  || includes hostname (lit "myworkdayjobs.com").

Section Platform.

(** [new URL(s).hostname]; [None] when the constructor throws. *)
Variable URL_hostname : jsstring -> option jsstring.

(** [validateForm] runs three checks in turn, each adding at most its own
    key to [newErrors]. *)
Definition check_resume (fd : FormData) (newErrors : FormErrors) : FormErrors :=
  if negb (str_truthy (resumeText fd)) && negb (is_some (resumeFile fd))
  then Errors.set_resume
         (Some (lit "Please paste your resume or upload a file")) newErrors
  else newErrors.

Definition check_desiredJobDescription (fd : FormData) (newErrors : FormErrors)
  : FormErrors :=
  if negb (str_truthy (trim (desiredJobDescription fd)))
  then Errors.set_desiredJobDescription
         (Some (lit "Please describe your desired job")) newErrors
  else newErrors.

Definition check_companyJobsUrl (fd : FormData) (newErrors : FormErrors)
  : FormErrors :=
  if negb (str_truthy (trim (companyJobsUrl fd)))
  then Errors.set_companyJobsUrl
         (Some (lit "Please enter a company jobs URL")) newErrors
  else
    match URL_hostname (companyJobsUrl fd) with
    | Some hostname =>
        if negb (isSupported hostname)
        then Errors.set_companyJobsUrl
               (Some (lit "Currently only Greenhouse, Lever, and Workday URLs are supported"))
               newErrors
        else newErrors
    | None =>
        Errors.set_companyJobsUrl (Some (lit "Please enter a valid URL")) newErrors
    end.

(** [validateForm]: the new error object and the returned boolean. *)
Definition validateForm (fd : FormData) : FormErrors * bool :=
  let newErrors := Errors.empty in
  let newErrors := check_resume fd newErrors in
  let newErrors := check_desiredJobDescription fd newErrors in
  let newErrors := check_companyJobsUrl fd newErrors in
  (newErrors, Nat.eqb (Errors.keys_length newErrors) 0).

(** [handleSubmit] up to its first [await]: the new state and the request
    that goes out, if one does. *)
Definition handleSubmit (st : State) : State * option RequestBody :=
  let '(newErrors, valid) := validateForm (formData st) in
  if negb valid then (setErrors (fun _ => newErrors) st, None)
  else (setErrors (fun _ => Errors.empty) (setIsLoading true st),
        Some (requestBody (formData st))).

(** [handleSubmit] after its awaits: [catch] and [finally]. *)
Definition handleSubmit_settle (reply : Reply) (st : State) : State :=
  let st' :=
    match try_block reply with
    | Caught t =>
        setErrors (fun _ =>
          {| Errors.resume := None; Errors.desiredJobDescription := None;
             Errors.companyJobsUrl := None;
             Errors.submit := Some (catch_message t) |}) st
    | Stored _ => st
    end in
  setIsLoading false st'.

(** Events of the rendered form. *)
Inductive Event : Type :=
| ClickPasteText
| ClickUploadFile
| ChangeResumeText (value : jsstring)
| ChangeFile (file : option File)
| ChangeDesiredJobDescription (value : jsstring)
| ChangeCompanyJobsUrl (value : jsstring)
| Submit
| Settle (reply : Reply).

(** The text area exists only in paste mode and the file input only in
    upload mode; the submit button is disabled while a request is
    pending, and a request settles only while one is pending. *)
Definition enabled (st : State) (ev : Event) : bool :=
  match ev with
  | ChangeResumeText _ =>
      match inputMode st with paste => true | upload => false end
  | ChangeFile _ =>
      match inputMode st with upload => true | paste => false end
  | Submit => negb (isLoading st)
  | Settle _ => isLoading st
  | _ => true
  end.

Definition handle (ev : Event) (st : State) : State :=
  match ev with
  | ClickPasteText => clickPasteText st
  | ClickUploadFile => clickUploadFile st
  | ChangeResumeText value => changeResumeText value st
  | ChangeFile file => handleFileChange file st
  | ChangeDesiredJobDescription value => changeDesiredJobDescription value st
  | ChangeCompanyJobsUrl value => changeCompanyJobsUrl value st
  | Submit => fst (handleSubmit st)
  | Settle reply => handleSubmit_settle reply st
  end.

Fixpoint run (evs : list Event) (st : State) : option State :=
  match evs with
  | [] => Some st
  | ev :: rest => if enabled st ev then run rest (handle ev st) else None
  end.

(** States the form can be in. *)
Definition reachable (st : State) : Prop :=
  exists evs, run evs initial = Some st.


End Platform.

(** The events that edit a text field or switch the mode. *)
Definition is_edit (ev : Event) : bool :=
  match ev with
  | ClickPasteText | ClickUploadFile | ChangeResumeText _
  | ChangeDesiredJobDescription _ | ChangeCompanyJobsUrl _ => true
  | ChangeFile _ | Submit | Settle _ => false
  end.

(** [reader.onload] of [fileToBase64]: what the promise resolves with for
    the data URL [result]; [None] is [undefined]. *)
Definition fileToBase64_onload (result : jsstring) : option jsstring :=
  nth_error (split_on 44 result) 1.

(** What the handlers keep true of the resume: in paste mode no file is
    held, in upload mode no text is held, and a held file has an accepted
    content type. *)
Definition resume_invariant (st : State) : Prop :=
  match inputMode st with
  | paste => resumeFile (formData st) = None
  | upload => resumeText (formData st) = []
  end
  /\ (forall f, resumeFile (formData st) = Some f ->
              array_includes validTypes (type f) = true).

(** Answers of [new URL(s).hostname] on the addresses used in examples; the
    table treats every other string as unparseable. *)
Definition URL_hostname_sample (s : jsstring) : option jsstring :=
  if str_eqb s (lit "https://boards.greenhouse.io/acme")
  then Some (lit "boards.greenhouse.io")
  else if str_eqb s (lit "https://example.com/careers")
  then Some (lit "example.com")
  else None.

(** Sample data for the examples. *)
Definition sample_form : FormData :=
  {| resumeText := lit "   ";
     resumeFile := None;
     desiredJobDescription := lit "data analyst intern, SQL, remote";
     companyJobsUrl := lit "https://boards.greenhouse.io/acme" |}.

Definition sample_png : File :=
  {| name := lit "photo.png"; type := lit "image/png"; bytes := [137; 80; 78; 71]%N |}.

Definition sample_pdf : File :=
  {| name := lit "resume.pdf"; type := lit "application/pdf";
     bytes := [37; 80; 68; 70]%N |}.

(** The form after the user typed a resume into the text area. *)
Definition typed_resume : State :=
  changeResumeText (lit "Analyst, five years of SQL") initial.

(** The form holding [sample_form], and the same form once submitted. *)
Definition filled : State := setFormData (fun _ => sample_form) initial.

Definition pending : State := fst (handleSubmit URL_hostname_sample filled).

End UploadForm.

(* ================================================================== *)
(** ** The results component ([components/ResultsList.tsx]) and its    *)
(** ** page ([results/page.tsx])                                       *)
(* ================================================================== *)

Module Results.

Record JobPosting : Type := {
  id : jsstring;
  title : jsstring;
  location : jsstring;
  description : jsstring;
  apply_url : jsstring;
  source : jsstring
}.

Record MatchResult : Type := {
  job : JobPosting;
  match_score : Z;
  why_matches : list jsstring;
  gaps : list jsstring
}.

(** *** [ScoreBadge] *)

Record BadgeView : Type := {
  colorClass : jsstring;
  percent : Z                      (* the text is score, then % Match *)
}.

Definition ScoreBadge (score : Z) : BadgeView :=
  let colorClass := lit "bg-yellow-100 text-yellow-800" in
  let colorClass :=
    if (score >=? 80)%Z then lit "bg-green-100 text-green-800"
    else if (score >=? 60)%Z then lit "bg-blue-100 text-blue-800"
    else if (score <? 40)%Z then lit "bg-red-100 text-red-800"
    else colorClass in
  {| colorClass := colorClass; percent := score |}.

(** *** [JobCard] *)

Definition no_gaps_sentinel : jsstring := lit "No significant gaps identified".

Record CardView : Type := {
  isTopThree : bool;               (* the highlighted frame *)
  rankBadge : option nat;          (* the round badge holding the rank *)
  cardTitle : jsstring;
  cardLocation : jsstring;
  cardSource : jsstring;
  scoreBadge : BadgeView;
  whyThisMatches : list jsstring;  (* one list item per reason *)
  potentialGaps : option (list jsstring);
                                   (* the section, with one item per gap *)
  applyHref : jsstring
}.

Definition JobCard (result : MatchResult) (rank : nat) : CardView :=
  let isTopThree := Nat.leb rank 3 in
  {| isTopThree := isTopThree;
     rankBadge := if isTopThree then Some rank else None;
     cardTitle := title (job result);
     cardLocation :=
       if str_truthy (location (job result)) then location (job result)
       else lit "Location not specified";
     cardSource := source (job result);
     scoreBadge := ScoreBadge (match_score result);
     whyThisMatches := map (fun reason => reason) (why_matches result);
     potentialGaps :=
       if Nat.ltb 0 (length (gaps result))
          && negb (match nth_error (gaps result) 0 with
                   | Some g => str_eqb g no_gaps_sentinel
                   | None => false
                   end)
       then Some (map (fun gap => gap) (gaps result))
       else None;
     applyHref := apply_url (job result) |}.

(** *** [ResultsList] *)

(** A [JobCard] element as [ResultsList] creates it: its two props. *)
Record JobCardProps (A : Type) : Type := {
  result : A;
  rank : nat
}.
Arguments result {A} _.
Arguments rank {A} _.

Inductive ListView (A : Type) : Type :=
| NoMatchingJobs
| Listing (found : nat)                       (* Found n Matching Jobs *)
          (topRecommendations : list (JobCardProps A))
          (otherMatches : option (list (JobCardProps A))).
Arguments NoMatchingJobs {A}.
Arguments Listing {A} found topRecommendations otherMatches.

(** [arr.map((x, index) => f x index)] *)
Fixpoint map_from {A B} (f : A -> nat -> B) (index : nat) (arr : list A) : list B :=
  match arr with
  | [] => []
  | x :: rest => f x index :: map_from f (S index) rest
  end.

Definition map_indexed {A B} (f : A -> nat -> B) (arr : list A) : list B :=
  map_from f 0 arr.

(** [arr.slice(0, n)] and [arr.slice(n)] *)
Definition slice_to {A} (n : nat) (arr : list A) : list A := firstn n arr.
Definition slice_from {A} (n : nat) (arr : list A) : list A := skipn n arr.

Definition ResultsList {A} (results : list A) : ListView A :=
  if Nat.eqb (length results) 0 then NoMatchingJobs
  else
    Listing (length results)
      (map_indexed (fun result index => {| result := result; rank := index + 1 |})
                   (slice_to 3 results))
      (if Nat.ltb 3 (length results)
       then Some (map_indexed
                    (fun result index => {| result := result; rank := index + 4 |})
                    (slice_from 3 results))
       else None).

(** The cards of a view, in document order. *)
Definition cards {A} (v : ListView A) : list (JobCardProps A) :=
  match v with
  | NoMatchingJobs => []
  | Listing _ top others =>
      top ++ match others with Some l => l | None => [] end
  end.

(** *** [ResultsPage] *)

(** The page passes on whatever [JSON.parse] gave it, so at run time the
    prop [results] is any value.  [key_of] is the key [result.job.id] that
    [ResultsList] computes for each element. *)
Definition key_of (result : JValue) : Completion JValue :=
  bind (get result (lit "job")) (fun job => get job (lit "id")).

Fixpoint all_normal {A} (l : list (Completion A)) : Completion unit :=
  match l with
  | [] => Normal tt
  | Normal _ :: rest => all_normal rest
  | Throw err :: _ => Throw err
  end.

Definition ResultsList_any (results : JValue) : Completion (ListView JValue) :=
  bind (get_length results) (fun len =>
    if strict_equals_zero len then Normal NoMatchingJobs
    else
      match results with
      | JArr elems =>
          bind (all_normal (map key_of elems)) (fun _ =>
            Normal (ResultsList elems))
      | JStr _ => Throw (TypeError_not_a_function (lit "map"))
      | _ => Throw (TypeError_not_a_function (lit "slice"))
      end).

(** Session storage: the value under each key, if any. *)
Definition Storage := jsstring -> option jsstring.

Definition getItem (storage : Storage) (key : jsstring) : option jsstring :=
  storage key.

Record PageState : Type := {
  results : JValue;
  loading : bool
}.

Definition page_initial : PageState :=
  {| results := JArr []; loading := true |}.

(** The effect run on mount. *)
Definition useEffect (storage : Storage) (st : PageState) : PageState :=
  let stored := getItem storage (lit "jobResults") in
  let parsedResults := JArr [] in
  let parsedResults :=
    match stored with
    | Some text =>
        if str_truthy text then
          match JSON_parse text with
          | Some v => v
          | None => parsedResults     (* Invalid JSON, use empty array *)
          end
        else parsedResults
    | None => parsedResults
    end in
  {| results := parsedResults; loading := false |}.

Inductive PageView : Type :=
| LoadingResults                      (* the spinner *)
| NoResultsFound                      (* the empty-state notice *)
| ShowResults (list_view : ListView JValue)
| RenderError (err : EngineError).    (* rendering threw *)

Definition ResultsPage_render (st : PageState) : PageView :=
  if loading st then LoadingResults
  else
    match get_length (results st) with
    | Throw err => RenderError err
    | Normal len =>
        if strict_equals_zero len then NoResultsFound
        else
          match ResultsList_any (results st) with
          | Normal v => ShowResults v
          | Throw err => RenderError err
          end
    end.

(** A session storage whose slot [jobResults] holds [slot] and whose other
    keys are unset. *)
Definition slot_storage (slot : option jsstring) : Storage :=
  fun key => if str_eqb key (lit "jobResults") then slot else None.

(** The page once mounted with the given content of the storage slot. *)
Definition ResultsPage (slot : option jsstring) : PageView :=
  ResultsPage_render (useEffect (slot_storage slot) page_initial).

(** A [MatchResult] as the object it is at run time. *)
Definition JobPosting_object (j : JobPosting) : JValue :=
  JObj [(lit "id", JStr (id j)); (lit "title", JStr (title j));
        (lit "location", JStr (location j));
        (lit "description", JStr (description j));
        (lit "apply_url", JStr (apply_url j)); (lit "source", JStr (source j))].

Definition MatchResult_object (r : MatchResult) : JValue :=
  JObj [(lit "job", JobPosting_object (job r));
        (lit "match_score", JNum (match_score r) 0);
        (lit "why_matches", JArr (map JStr (why_matches r)));
        (lit "gaps", JArr (map JStr (gaps r)))].

(** Sample data for the examples, after the response shown in the README. *)
Definition posting : JobPosting :=
  {| id := lit "123"; title := lit "Data Analyst Intern";
     location := lit "Remote"; description := lit "...";
     apply_url := lit "https://boards.greenhouse.io/acme/jobs/123";
     source := lit "greenhouse" |}.

Definition with_gaps (gs : list jsstring) : MatchResult :=
  {| job := posting; match_score := 85;
     why_matches := [lit "Strong SQL skills match requirements"];
     gaps := gs |}.

End Results.

(* ================================================================== *)
(** ** Properties                                                      *)
(* ================================================================== *)

(** *** Strings *)

Lemma str_eqb_eq (a b : jsstring) : str_eqb a b = true <-> a = b.
Proof.
  revert b. induction a as [|x a IH]; intros [|y b]; simpl; split;
    try reflexivity; try discriminate.
  - intros H. apply andb_true_iff in H as [Hx Hab].
    apply N.eqb_eq in Hx. apply IH in Hab. congruence.
  - intros H. injection H as -> ->.
    rewrite N.eqb_refl. simpl. apply IH. reflexivity.
Qed.

Lemma str_eqb_refl (a : jsstring) : str_eqb a a = true.
Proof. apply str_eqb_eq. reflexivity. Qed.

Lemma str_eqb_neq (a b : jsstring) : str_eqb a b = false <-> a <> b.
Proof.
  split.
  - intros H E. apply str_eqb_eq in E. congruence.
  - intros H. destruct (str_eqb a b) eqn:E; [|reflexivity].
    apply str_eqb_eq in E. contradiction.
Qed.

Lemma str_truthy_false (s : jsstring) : str_truthy s = false <-> s = [].
Proof. destruct s; simpl; split; congruence. Qed.

Lemma str_truthy_true (s : jsstring) : str_truthy s = true <-> s <> [].
Proof. destruct s; simpl; split; congruence. Qed.

(** *** The parser and its fuel *)

Lemma skip_ws_length (s : jsstring) : length (skip_ws s) <= length s.
Proof.
  induction s as [|c s IH]; simpl; [lia|].
  destruct (is_json_ws c); simpl; lia.
Qed.

Lemma read_digits_length (s : jsstring) (acc count : Z) :
  length (snd (read_digits s acc count)) <= length s.
Proof.
  revert acc count. induction s as [|c s IH]; intros acc count; simpl; [lia|].
  destruct (is_digit c); simpl; [|lia].
  specialize (IH (acc * 10 + digit_value c)%Z (count + 1)%Z). lia.
Qed.

Lemma read_int_length (s : jsstring) (m : Z) (rest : jsstring) :
  read_int s = Some (m, rest) -> length rest < length s.
Proof.
  unfold read_int. destruct s as [|c t]; [discriminate|].
  destruct (c =? 48)%N.
  - intros H. injection H as _ <-. simpl. lia.
  - destruct (is_digit c); [|discriminate].
    pose proof (read_digits_length t (digit_value c) 1) as L.
    destruct (read_digits t (digit_value c) 1) as [[m' k] r].
    intros H. injection H as _ <-. simpl in *. lia.
Qed.

Lemma read_frac_length (m : Z) (s : jsstring) (m' e : Z) (rest : jsstring) :
  read_frac m s = Some (m', e, rest) -> length rest <= length s.
Proof.
  unfold read_frac. destruct s as [|c t].
  - intros H. injection H as _ _ <-. simpl. lia.
  - destruct (c =? 46)%N.
    + pose proof (read_digits_length t m 0) as L.
      destruct (read_digits t m 0) as [[x k] r].
      destruct (k =? 0)%Z; [discriminate|].
      intros H. injection H as _ _ <-. simpl in *. lia.
    + intros H. injection H as _ _ <-. lia.
Qed.

Lemma read_exp_length (s : jsstring) (e : Z) (rest : jsstring) :
  read_exp s = Some (e, rest) -> length rest <= length s.
Proof.
  unfold read_exp. destruct s as [|c t].
  - intros H. injection H as _ <-. simpl. lia.
  - destruct ((c =? 101) || (c =? 69))%N.
    + set (p := match t with
                | [] => (false, t)
                | d :: u => if (d =? 45)%N then (true, u)
                            else if (d =? 43)%N then (false, u) else (false, t)
                end).
      assert (Lp : length (snd p) <= length t).
      { subst p. destruct t as [|d u]; simpl; [lia|].
        destruct (d =? 45)%N; simpl; [lia|].
        destruct (d =? 43)%N; simpl; lia. }
      destruct p as [negative t'].
      pose proof (read_digits_length t' 0 0) as L.
      destruct (read_digits t' 0 0) as [[x k] r].
      destruct (k =? 0)%Z; [discriminate|].
      intros H. injection H as _ <-. simpl in *. lia.
    + intros H. injection H as _ <-. lia.
Qed.

Lemma parse_number_length (s : jsstring) (v : JValue) (rest : jsstring) :
  parse_number s = Some (v, rest) -> length rest < length s.
Proof.
  unfold parse_number.
  set (p := match s with
            | [] => (false, s)
            | c :: t => if (c =? 45)%N then (true, t) else (false, s)
            end).
  assert (Lp : length (snd p) <= length s).
  { subst p. destruct s as [|c t]; simpl; [lia|].
    destruct (c =? 45)%N; simpl; lia. }
  destruct p as [negative s1].
  destruct (read_int s1) as [[m s2]|] eqn:Ei; [|discriminate].
  apply read_int_length in Ei.
  destruct (read_frac m s2) as [[[m' e1] s3]|] eqn:Ef; [|discriminate].
  apply read_frac_length in Ef.
  destruct (read_exp s3) as [[e2 s4]|] eqn:Ee; [|discriminate].
  apply read_exp_length in Ee.
  intros H. injection H as _ <-. simpl in *. lia.
Qed.

Lemma parse_string_body_length (s acc str rest : jsstring) :
  parse_string_body s acc = Some (str, rest) -> length rest < length s.
Proof.
  remember (length s) as n eqn:Hn. revert s acc Hn.
  induction n as [n IH] using lt_wf_ind. intros s acc Hn.
  destruct s as [|c t]; [discriminate|]. simpl.
  destruct (c =? 34)%N.
  { intros H. injection H as _ <-. simpl in Hn. lia. }
  destruct (c =? 92)%N.
  { destruct t as [|x t1]; [discriminate|].
    destruct (x =? 117)%N.
    - destruct t1 as [|h1 [|h2 [|h3 [|h4 t2]]]]; try discriminate.
      destruct (hex4 h1 h2 h3 h4); [|discriminate].
      intros H. apply (IH (length t2)) in H; simpl in *; lia.
    - destruct (unescape x); [|discriminate].
      intros H. apply (IH (length t1)) in H; simpl in *; lia. }
  destruct (c <? 32)%N; [discriminate|].
  intros H. apply (IH (length t)) in H; simpl in *; lia.
Qed.

Lemma expect_length (w : jsstring) (v v' : JValue) (s rest : jsstring) :
  expect w v s = Some (v', rest) -> length rest <= length s.
Proof.
  unfold expect. destruct (startsWith s w); [|discriminate].
  intros H. injection H as _ <-. rewrite length_skipn. lia.
Qed.

(** Every successful parse consumes input. *)
Lemma parse_progress (fuel : nat) :
  (forall s v rest, parse_value fuel s = Some (v, rest) -> length rest < length s)
  /\ (forall s acc l rest,
        parse_elements fuel s acc = Some (l, rest) -> length rest < length s)
  /\ (forall s acc l rest,
        parse_members fuel s acc = Some (l, rest) -> length rest < length s).
Proof.
  induction fuel as [|fuel (IHv & IHe & IHm)].
  { repeat split; intros; discriminate. }
  split; [|split].
  - intros s v rest. cbn [parse_value].
    destruct s as [|c t]; [discriminate|].
    destruct (c =? 110)%N. { intros H. apply expect_length in H. simpl. lia. }
    destruct (c =? 116)%N. { intros H. apply expect_length in H. simpl. lia. }
    destruct (c =? 102)%N. { intros H. apply expect_length in H. simpl. lia. }
    destruct (c =? 34)%N.
    { destruct (parse_string_body t []) as [[str r]|] eqn:E; [|discriminate].
      apply parse_string_body_length in E.
      intros H. injection H as _ <-. simpl. lia. }
    destruct (c =? 91)%N.
    { pose proof (skip_ws_length t) as L.
      destruct (skip_ws t) as [|c' t']; [discriminate|].
      destruct (c' =? 93)%N.
      - intros H. injection H as _ <-. simpl in *. lia.
      - destruct (parse_elements fuel (c' :: t') []) as [[l r]|] eqn:E;
          [|discriminate].
        apply IHe in E. intros H. injection H as _ <-. simpl in *. lia. }
    destruct (c =? 123)%N.
    { pose proof (skip_ws_length t) as L.
      destruct (skip_ws t) as [|c' t']; [discriminate|].
      destruct (c' =? 125)%N.
      - intros H. injection H as _ <-. simpl in *. lia.
      - destruct (parse_members fuel (c' :: t') []) as [[l r]|] eqn:E;
          [|discriminate].
        apply IHm in E. intros H. injection H as _ <-. simpl in *. lia. }
    apply parse_number_length.
  - intros s acc l rest. cbn [parse_elements].
    destruct (parse_value fuel s) as [[v r]|] eqn:E; [|discriminate].
    apply IHv in E.
    pose proof (skip_ws_length r) as L.
    destruct (skip_ws r) as [|c t]; [discriminate|].
    destruct (c =? 44)%N.
    + intros H. apply IHe in H. pose proof (skip_ws_length t). simpl in *. lia.
    + destruct (c =? 93)%N; [|discriminate].
      intros H. injection H as _ <-. simpl in *. lia.
  - intros s acc l rest. cbn [parse_members].
    destruct s as [|q t]; [discriminate|].
    destruct (q =? 34)%N; [|discriminate].
    destruct (parse_string_body t []) as [[k r]|] eqn:Ek; [|discriminate].
    apply parse_string_body_length in Ek.
    pose proof (skip_ws_length r) as L.
    destruct (skip_ws r) as [|c t1]; [discriminate|].
    destruct (c =? 58)%N; [|discriminate].
    pose proof (skip_ws_length t1) as L1.
    destruct (parse_value fuel (skip_ws t1)) as [[v r']|] eqn:Ev; [|discriminate].
    apply IHv in Ev.
    pose proof (skip_ws_length r') as L2.
    destruct (skip_ws r') as [|d t2]; [discriminate|].
    destruct (d =? 44)%N.
    + intros H. apply IHm in H. pose proof (skip_ws_length t2). simpl in *. lia.
    + destruct (d =? 125)%N; [|discriminate].
      intros H. injection H as _ <-. simpl in *. lia.
Qed.

Lemma parse_value_S (fuel : nat) (s : jsstring) :
  parse_value (S fuel) s =
  match s with
  | [] => None
  | c :: t =>
      if (c =? 110)%N then expect (lit "ull") JNull t
      else if (c =? 116)%N then expect (lit "rue") (JBool true) t
      else if (c =? 102)%N then expect (lit "alse") (JBool false) t
      else if (c =? 34)%N then
        match parse_string_body t [] with
        | Some (str, rest) => Some (JStr str, rest)
        | None => None
        end
      else if (c =? 91)%N then
        match skip_ws t with
        | [] => None
        | c' :: t' =>
            if (c' =? 93)%N then Some (JArr [], t')
            else
              match parse_elements fuel (c' :: t') [] with
              | Some (elems, rest) => Some (JArr elems, rest)
              | None => None
              end
        end
      else if (c =? 123)%N then
        match skip_ws t with
        | [] => None
        | c' :: t' =>
            if (c' =? 125)%N then Some (JObj [], t')
            else
              match parse_members fuel (c' :: t') [] with
              | Some (members, rest) => Some (JObj members, rest)
              | None => None
              end
        end
      else parse_number s
  end.
Proof. reflexivity. Qed.

Lemma parse_elements_S (fuel : nat) (s : jsstring) (acc : list JValue) :
  parse_elements (S fuel) s acc =
  match parse_value fuel s with
  | None => None
  | Some (v, rest) =>
      match skip_ws rest with
      | [] => None
      | c :: t =>
          if (c =? 44)%N then parse_elements fuel (skip_ws t) (v :: acc)
          else if (c =? 93)%N then Some (rev (v :: acc), t)
          else None
      end
  end.
Proof. reflexivity. Qed.

Lemma parse_members_S (fuel : nat) (s : jsstring)
      (acc : list (jsstring * JValue)) :
  parse_members (S fuel) s acc =
  match s with
  | [] => None
  | q :: t =>
      if (q =? 34)%N then
        match parse_string_body t [] with
        | None => None
        | Some (k, rest) =>
            match skip_ws rest with
            | [] => None
            | c :: t1 =>
                if (c =? 58)%N then
                  match parse_value fuel (skip_ws t1) with
                  | None => None
                  | Some (v, rest') =>
                      match skip_ws rest' with
                      | [] => None
                      | d :: t2 =>
                          if (d =? 44)%N then
                            parse_members fuel (skip_ws t2) ((k, v) :: acc)
                          else if (d =? 125)%N then
                            Some (rev ((k, v) :: acc), t2)
                          else None
                      end
                  end
                else None
            end
        end
      else None
  end.
Proof. reflexivity. Qed.

(** One more unit of fuel changes nothing once the fuel covers the input. *)
Lemma parse_stable (fuel : nat) :
  (forall s, 2 * length s + 1 <= fuel ->
     parse_value (S fuel) s = parse_value fuel s)
  /\ (forall s acc, 2 * length s + 2 <= fuel ->
        parse_elements (S fuel) s acc = parse_elements fuel s acc)
  /\ (forall s acc, 2 * length s + 2 <= fuel ->
        parse_members (S fuel) s acc = parse_members fuel s acc).
Proof.
  induction fuel as [|fuel (IHv & IHe & IHm)].
  { repeat split; intros; simpl in *; lia. }
  destruct (parse_progress fuel) as (Pv & _ & _).
  split; [|split].
  - intros s B.
    rewrite (parse_value_S (S fuel) s), (parse_value_S fuel s).
    destruct s as [|c t]; [reflexivity|].
    pose proof (skip_ws_length t) as L. simpl in B.
    destruct (skip_ws t) as [|c' t'].
    + reflexivity.
    + rewrite IHe, IHm by (simpl in *; lia). reflexivity.
  - intros s acc B.
    rewrite (parse_elements_S (S fuel) s acc), (parse_elements_S fuel s acc).
    rewrite IHv by lia.
    destruct (parse_value fuel s) as [[v r]|] eqn:E; [|reflexivity].
    apply Pv in E.
    pose proof (skip_ws_length r) as L.
    destruct (skip_ws r) as [|c t]; [reflexivity|].
    pose proof (skip_ws_length t) as L'.
    rewrite IHe by (simpl in *; lia). reflexivity.
  - intros s acc B.
    rewrite (parse_members_S (S fuel) s acc), (parse_members_S fuel s acc).
    destruct s as [|q t]; [reflexivity|].
    destruct (q =? 34)%N; [|reflexivity].
    destruct (parse_string_body t []) as [[k r]|] eqn:Ek; [|reflexivity].
    apply parse_string_body_length in Ek.
    pose proof (skip_ws_length r) as L.
    destruct (skip_ws r) as [|c t1]; [reflexivity|].
    destruct (c =? 58)%N; [|reflexivity].
    pose proof (skip_ws_length t1) as L1.
    rewrite IHv by (simpl in *; lia).
    destruct (parse_value fuel (skip_ws t1)) as [[v r']|] eqn:Ev; [|reflexivity].
    apply Pv in Ev.
    pose proof (skip_ws_length r') as L2.
    destruct (skip_ws r') as [|d t2]; [reflexivity|].
    pose proof (skip_ws_length t2) as L3.
    rewrite IHm by (simpl in *; lia). reflexivity.
Qed.

(** With enough fuel for its input, the parser's answer does not depend on
    the fuel: a [None] is a rejection of the text, never a shortage. *)
Lemma parse_value_enough_fuel (fuel : nat) (s : jsstring) :
  2 * length s + 1 <= fuel ->
  parse_value fuel s = parse_value (2 * length s + 1) s.
Proof.
  intros B. induction fuel as [|fuel IH]; [lia|].
  destruct (Nat.eq_dec (S fuel) (2 * length s + 1)) as [E|N].
  - rewrite E. reflexivity.
  - destruct (parse_stable fuel) as (Sv & _). rewrite Sv by lia.
    apply IH. lia.
Qed.

Lemma JSON_parse_enough_fuel (fuel : nat) (text : jsstring) :
  2 * length text + 2 <= fuel ->
  JSON_parse text =
  match parse_value fuel (skip_ws text) with
  | Some (v, rest) =>
      match skip_ws rest with
      | [] => Some v
      | _ :: _ => None
      end
  | None => None
  end.
Proof.
  intros B. unfold JSON_parse.
  pose proof (skip_ws_length text) as L.
  rewrite (parse_value_enough_fuel fuel) by lia.
  rewrite (parse_value_enough_fuel (2 * length text + 2)) by lia.
  reflexivity.
Qed.

(** The parser on a few texts: values, nesting, escapes, a repeated key,
    and texts it rejects (a leading zero, a trailing comma, a bare word,
    trailing input, markup). *)
Example JSON_parse_examples :
  map JSON_parse
      [lit "null"; lit " [1, 2.50e-1, true] "; json_lit "{'k': [], 'k': 'a\nb'}";
       lit "[[[]]]"; lit "-0";
       lit "[01]"; lit "[1,]"; lit "undefined"; lit "nulll"; lit "<html>"; lit ""]
  = [Some JNull;
     Some (JArr [JNum 1 0; JNum 250 (-3); JBool true]);
     Some (JObj [(lit "k", JArr []); (lit "k", JStr [97; 10; 98]%N)]);
     Some (JArr [JArr [JArr []]]); Some (JNum 0 0);
     None; None; None; None; None; None].
Proof. vm_compute. reflexivity. Qed.

Module ResultsFacts.
Import Results.

(** *** The score badge *)

(** C4.  The colour class of the score badge is decided by the score alone:
    green (top tier) exactly from 80 up, blue (second tier) exactly on
    60..79, yellow (third tier) exactly on 40..59 and red (lowest tier)
    exactly below 40.  The four classes are distinct strings, so every
    integer, and in particular every integer 0..100, falls in one tier and
    one only, each boundary belonging to the tier it opens. *)
Theorem score_tiers (score : Z) :
  (colorClass (ScoreBadge score) = lit "bg-green-100 text-green-800"
     <-> (80 <= score)%Z)
  /\ (colorClass (ScoreBadge score) = lit "bg-blue-100 text-blue-800"
     <-> (60 <= score < 80)%Z)
  /\ (colorClass (ScoreBadge score) = lit "bg-yellow-100 text-yellow-800"
     <-> (40 <= score < 60)%Z)
  /\ (colorClass (ScoreBadge score) = lit "bg-red-100 text-red-800"
     <-> (score < 40)%Z)
  /\ percent (ScoreBadge score) = score.
Proof.
  unfold ScoreBadge. cbn [colorClass percent].
  destruct (Z.geb_spec score 80) as [H80|H80];
    [|destruct (Z.geb_spec score 60) as [H60|H60];
      [|destruct (Z.ltb_spec score 40) as [H40|H40]]];
    (split; [|split; [|split; [|split; [|reflexivity]]]]);
    (split;
     [ intros Hc; first [lia | vm_compute in Hc; discriminate Hc]
     | intros Hr; first [reflexivity | lia] ]).
Qed.

(** The boundary scores named by the specification. *)
Example score_tier_boundaries :
  map (fun s => colorClass (ScoreBadge s)) [80; 79; 60; 59; 40; 39; 100; 0]%Z
  = [lit "bg-green-100 text-green-800"; lit "bg-blue-100 text-blue-800";
     lit "bg-blue-100 text-blue-800"; lit "bg-yellow-100 text-yellow-800";
     lit "bg-yellow-100 text-yellow-800"; lit "bg-red-100 text-red-800";
     lit "bg-green-100 text-green-800"; lit "bg-red-100 text-red-800"].
Proof. vm_compute. reflexivity. Qed.

(** *** The gaps section of a card *)

(** C1, as stated, fails: a list that starts with the sentinel and goes on
    is not the one-element sentinel list and is not empty, yet the card
    shows no gaps section for it. *)
Lemma gaps_after_sentinel_are_dropped :
  let r := with_gaps [no_gaps_sentinel; lit "No experience with Tableau mentioned"] in
  gaps r <> [no_gaps_sentinel]
  /\ gaps r <> []
  /\ potentialGaps (JobCard r 1) = None.
Proof.
  cbv zeta. split; [|split].
  - discriminate.
  - discriminate.
  - vm_compute. reflexivity.
Qed.

(** C1, amended.  The card omits the gaps section exactly when the gaps
    list is empty or its first element is the sentinel; every other list is
    shown in full and in order. *)
Theorem gaps_section_rule (r : MatchResult) (k : nat) :
  (potentialGaps (JobCard r k) = None
     <-> gaps r = [] \/ exists rest, gaps r = no_gaps_sentinel :: rest)
  /\ (potentialGaps (JobCard r k) = None
      \/ potentialGaps (JobCard r k) = Some (gaps r)).
Proof.
  unfold JobCard. cbn [potentialGaps].
  destruct (gaps r) as [|g rest] eqn:E.
  - simpl. split; [split; auto|auto].
  - cbn [length nth_error Nat.ltb Nat.leb andb].
    rewrite map_id.
    destruct (str_eqb g no_gaps_sentinel) eqn:Eg; cbn [negb].
    + apply str_eqb_eq in Eg. subst g.
      split; [split; eauto|auto].
    + apply str_eqb_neq in Eg.
      split; [|auto]. split; [discriminate|].
      intros [H|[rest' H]]; [discriminate|]. congruence.
Qed.

(** *** Ranks *)

Lemma map_from_result {A} (f : nat -> nat) (l : list A) (n : nat) :
  map result (map_from (fun x index => {| result := x; rank := f index |}) n l) = l.
Proof.
  revert n. induction l as [|x l IH]; intros n; simpl; [reflexivity|].
  rewrite IH. reflexivity.
Qed.

Lemma map_from_rank {A} (k : nat) (l : list A) (n : nat) :
  map rank (map_from (fun x index => {| result := x; rank := index + k |}) n l)
  = seq (n + k) (length l).
Proof.
  revert n. induction l as [|x l IH]; intros n; simpl; [reflexivity|].
  rewrite IH. reflexivity.
Qed.

Lemma map_from_length {A B} (f : A -> nat -> B) (l : list A) (n : nat) :
  length (map_from f n l) = length l.
Proof.
  revert n. induction l as [|x l IH]; intros n; simpl; [reflexivity|].
  rewrite IH. reflexivity.
Qed.

(** What [JobCard] does with its rank: the frame and the badge. *)
Lemma JobCard_rank (r : MatchResult) (k : nat) :
  isTopThree (JobCard r k) = Nat.leb k 3
  /\ rankBadge (JobCard r k) = if Nat.leb k 3 then Some k else None.
Proof. split; reflexivity. Qed.

(** C9.  For a stored list of N entries the view creates one card per
    entry, in stored order, the entry at index i with rank i+1.  The first
    three form the top recommendations, ranks 1.., each flagged top-three
    and showing its rank in the badge; the rest, present only beyond three
    entries, form the other matches with ranks 4.., not flagged. *)
Theorem ranks_in_stored_order (results : list MatchResult) :
  map result (cards (ResultsList results)) = results
  /\ map rank (cards (ResultsList results)) = seq 1 (length results)
  /\ match ResultsList results with
     | NoMatchingJobs => results = []
     | Listing found top others =>
         found = length results
         /\ map result top = firstn 3 results
         /\ map rank top = seq 1 (length top)
         /\ Forall (fun p =>
                      isTopThree (JobCard (result p) (rank p)) = true
                      /\ rankBadge (JobCard (result p) (rank p)) = Some (rank p))
                   top
         /\ match others with
            | None => length results <= 3
            | Some rest =>
                3 < length results
                /\ map result rest = skipn 3 results
                /\ map rank rest = seq 4 (length rest)
                /\ Forall (fun p =>
                             isTopThree (JobCard (result p) (rank p)) = false
                             /\ rankBadge (JobCard (result p) (rank p)) = None)
                          rest
            end
     end.
Proof.
  assert (Hflag : forall (l : list (JobCardProps MatchResult)) a n,
             map rank l = seq a n ->
             Forall (fun p => a <= rank p < a + n) l).
  { intros l. induction l as [|p l IH]; intros a n H; [constructor|].
    destruct n as [|n]; [discriminate|]. simpl in H. injection H as Hp Hl.
    constructor; [lia|].
    apply IH in Hl. eapply Forall_impl; [|exact Hl]. simpl. intros q Hq. lia. }
  unfold ResultsList, map_indexed, slice_to, slice_from.
  destruct (Nat.eqb_spec (length results) 0) as [Hz|Hnz].
  { apply length_zero_iff_nil in Hz. subst results. simpl. auto. }
  assert (Htop : map rank (map_from (fun (x : MatchResult) index =>
                    {| result := x; rank := index + 1 |}) 0 (firstn 3 results))
                 = seq 1 (length (firstn 3 results))).
  { rewrite map_from_rank. reflexivity. }
  assert (Hrest : map rank (map_from (fun (x : MatchResult) index =>
                    {| result := x; rank := index + 4 |}) 0 (skipn 3 results))
                 = seq 4 (length (skipn 3 results))).
  { rewrite map_from_rank. reflexivity. }
  assert (Hfl : length (firstn 3 results) = Nat.min 3 (length results))
    by apply length_firstn.
  assert (Hsl : length (skipn 3 results) = length results - 3)
    by apply length_skipn.
  assert (Hin : Forall (fun p : JobCardProps MatchResult =>
                   isTopThree (JobCard (result p) (rank p)) = true
                   /\ rankBadge (JobCard (result p) (rank p)) = Some (rank p))
                 (map_from (fun (x : MatchResult) index =>
                    {| result := x; rank := index + 1 |}) 0 (firstn 3 results))).
  { apply Hflag in Htop. eapply Forall_impl; [|exact Htop].
    intros p Hp. cbv beta in Hp. unfold JobCard. cbn [isTopThree rankBadge].
    assert (E : Nat.leb (rank p) 3 = true) by (apply Nat.leb_le; lia).
    rewrite E. auto. }
  assert (Hout : Forall (fun p : JobCardProps MatchResult =>
                   isTopThree (JobCard (result p) (rank p)) = false
                   /\ rankBadge (JobCard (result p) (rank p)) = None)
                 (map_from (fun (x : MatchResult) index =>
                    {| result := x; rank := index + 4 |}) 0 (skipn 3 results))).
  { apply Hflag in Hrest. eapply Forall_impl; [|exact Hrest].
    intros p Hp. cbv beta in Hp. unfold JobCard. cbn [isTopThree rankBadge].
    assert (E : Nat.leb (rank p) 3 = false) by (apply Nat.leb_gt; lia).
    rewrite E. auto. }
  destruct (Nat.ltb_spec 3 (length results)) as [Hgt|Hle]; cbn [cards].
  - split; [|split; [|split; [|split; [|split; [|split; [|split;
      [|split; [|split]]]]]]]].
    + rewrite map_app, !map_from_result. apply firstn_skipn.
    + rewrite map_app, Htop, Hrest, Hfl, Hsl.
      replace (Nat.min 3 (length results)) with 3 by lia.
      replace (length results) with (3 + (length results - 3)) at 2 by lia.
      rewrite seq_app. reflexivity.
    + reflexivity.
    + apply map_from_result.
    + rewrite map_from_length. exact Htop.
    + exact Hin.
    + exact Hgt.
    + apply map_from_result.
    + rewrite map_from_length. exact Hrest.
    + exact Hout.
  - split; [|split; [|split; [|split; [|split; [|split]]]]].
    + rewrite app_nil_r, map_from_result. apply firstn_all2. lia.
    + rewrite app_nil_r, Htop, Hfl. f_equal. lia.
    + reflexivity.
    + apply map_from_result.
    + rewrite map_from_length. exact Htop.
    + exact Hin.
    + exact Hle.
Qed.

(** *** The persisted slot *)

(** C2, as stated, fails: the text of an empty JSON object is valid JSON
    without the array structure, and the page neither treats it as an empty
    result set nor shows the empty-state notice: rendering throws.  The
    same happens for the JSON text null. *)
Lemma object_in_slot_breaks_rendering :
  JSON_parse (lit "{}") = Some (JObj [])
  /\ results (useEffect (slot_storage (Some (lit "{}"))) page_initial) = JObj []
  /\ ResultsPage (Some (lit "{}"))
     = RenderError (TypeError_not_a_function (lit "slice"))
  /\ ResultsPage (Some (lit "null"))
     = RenderError (TypeError_null_read (lit "length")).
Proof. repeat split; vm_compute; reflexivity. Qed.

(** C2, amended.  When the slot is absent, holds the empty string, holds
    text that is not JSON, or holds the JSON text of an empty array, the
    page takes the empty array as its result set and shows the empty-state
    notice, not an error.  (Parsed JSON of any other shape is handed on as
    it is.) *)
Theorem empty_state_without_results (slot : option jsstring) :
  (slot = None
   \/ slot = Some []
   \/ exists text, slot = Some text
        /\ (JSON_parse text = None \/ JSON_parse text = Some (JArr []))) ->
  results (useEffect (slot_storage slot) page_initial) = JArr []
  /\ ResultsPage slot = NoResultsFound.
Proof.
  intros H.
  assert (E : results (useEffect (slot_storage slot) page_initial) = JArr []).
  { unfold useEffect, getItem, slot_storage. cbn [results].
    replace (str_eqb (lit "jobResults") (lit "jobResults")) with true
      by (symmetry; apply str_eqb_refl).
    destruct H as [->|[->|(text & -> & [Hp|Hp])]]; try reflexivity;
      rewrite Hp; destruct (str_truthy text); reflexivity. }
  split; [exact E|].
  unfold ResultsPage, ResultsPage_render.
  rewrite E. reflexivity.
Qed.

Lemma empty_state_without_results_witness :
  results (useEffect (slot_storage (Some (lit "<html>"))) page_initial) = JArr []
  /\ ResultsPage (Some (lit "<html>")) = NoResultsFound.
Proof.
  apply (empty_state_without_results (Some (lit "<html>"))).
  right. right. exists (lit "<html>").
  split; [reflexivity|left; vm_compute; reflexivity].
Defined.

(** Five stored results: three top recommendations and two other matches,
    ranked 1 to 5 in stored order. *)
Example five_stored_results :
  exists top others,
    ResultsPage (Some (json_lit
      "[{'job':{'id':'a'}}, {'job':{'id':'b'}}, {'job':{'id':'c'}}, {'job':{'id':'d'}}, {'job':{'id':'e'}}]"))
    = ShowResults (Listing 5 top (Some others))
    /\ map rank top = [1; 2; 3]
    /\ map rank others = [4; 5]
    /\ map (fun p => key_of (result p)) (top ++ others)
       = map (fun k => Normal (JStr (lit k))) ["a"; "b"; "c"; "d"; "e"]%string.
Proof. vm_compute. do 2 eexists. repeat split. Qed.

(** X13.  The page shows the empty-state notice exactly when the value it holds
    has a [length] that is strictly equal to zero, and shows the spinner
    never once the effect has run. *)
Lemma empty_state_iff (slot : option jsstring) :
  ResultsPage slot <> LoadingResults
  /\ (ResultsPage slot = NoResultsFound
      <-> exists len,
            get_length (results (useEffect (slot_storage slot) page_initial))
            = Normal len
            /\ strict_equals_zero len = true).
Proof.
  unfold ResultsPage, ResultsPage_render.
  set (st := useEffect (slot_storage slot) page_initial).
  assert (L : loading st = false) by reflexivity.
  rewrite L.
  destruct (get_length (results st)) as [len|err] eqn:G.
  - destruct (strict_equals_zero len) eqn:Z.
    + split; [discriminate|]. split; [eauto|reflexivity].
    + split.
      * destruct (ResultsList_any (results st)); discriminate.
      * split.
        -- destruct (ResultsList_any (results st)); discriminate.
        -- intros (len' & E & Z'). congruence.
  - split; [discriminate|]. split; [discriminate|].
    intros (len' & E & _). discriminate.
Qed.

End ResultsFacts.

Module UploadFormFacts.
Import UploadForm.

(** *** Trimming *)

Lemma trimStart_nil (s : jsstring) :
  trimStart s = [] <-> Forall (fun c => is_white_space c = true) s.
Proof.
  induction s as [|c s IH]; simpl.
  - split; [constructor|reflexivity].
  - destruct (is_white_space c) eqn:E.
    + rewrite IH. split; [intros H; constructor; assumption|].
      intros H. inversion H; assumption.
    + split; [discriminate|]. intros H. inversion H; congruence.
Qed.

Lemma trimStart_head (s : jsstring) :
  match trimStart s with
  | [] => True
  | c :: _ => is_white_space c = false
  end.
Proof.
  induction s as [|c s IH]; simpl; [exact I|].
  destruct (is_white_space c) eqn:E; [exact IH|exact E].
Qed.

(** A string trims to the empty string exactly when it consists of white
    space only. *)
Lemma trim_nil (s : jsstring) :
  trim s = [] <-> Forall (fun c => is_white_space c = true) s.
Proof.
  unfold trim, trimEnd. split.
  - intros H.
    assert (H1 : trimStart (rev (trimStart s)) = []).
    { destruct (trimStart (rev (trimStart s))); [reflexivity|].
      simpl in H. apply app_eq_nil in H as [_ H]. discriminate. }
    apply trimStart_nil in H1.
    pose proof (trimStart_head s) as Hh.
    destruct (trimStart s) as [|c t] eqn:E.
    + apply trimStart_nil. exact E.
    + exfalso. apply Forall_rev in H1. rewrite rev_involutive in H1.
      inversion H1; congruence.
  - intros H. apply trimStart_nil in H. rewrite H. reflexivity.
Qed.

(** *** Mode switches *)

(** C8.  Switching to upload empties [resumeText] and switching to paste
    clears [resumeFile]; each switch sets its mode, leaves the rest of the
    state alone, and repeating it any number of times gives the state that
    one switch gives. *)
Theorem mode_switch_idempotent (st : State) (n : nat) :
  (resumeText (formData (clickUploadFile st)) = []
   /\ inputMode (clickUploadFile st) = upload
   /\ resumeFile (formData (clickUploadFile st)) = resumeFile (formData st))
  /\ (resumeFile (formData (clickPasteText st)) = None
      /\ inputMode (clickPasteText st) = paste
      /\ resumeText (formData (clickPasteText st)) = resumeText (formData st))
  /\ Nat.iter (S n) clickUploadFile st = clickUploadFile st
  /\ Nat.iter (S n) clickPasteText st = clickPasteText st.
Proof.
  split; [repeat split|]. split; [repeat split|].
  split; induction n as [|n IH]; try reflexivity.
  - change (Nat.iter (S (S n)) clickUploadFile st)
      with (clickUploadFile (Nat.iter (S n) clickUploadFile st)).
    rewrite IH. reflexivity.
  - change (Nat.iter (S (S n)) clickPasteText st)
      with (clickPasteText (Nat.iter (S n) clickPasteText st)).
    rewrite IH. reflexivity.
Qed.

(** *** The reachable states *)

Section Reachability.

Variable URL_hostname : jsstring -> option jsstring.

Lemma handleSubmit_frame (st : State) :
  formData (fst (handleSubmit URL_hostname st)) = formData st
  /\ inputMode (fst (handleSubmit URL_hostname st)) = inputMode st.
Proof.
  unfold handleSubmit.
  destruct (validateForm URL_hostname (formData st)) as [newErrors valid].
  destruct valid; split; reflexivity.
Qed.

Lemma handleSubmit_settle_frame (reply : Reply) (st : State) :
  formData (handleSubmit_settle reply st) = formData st
  /\ inputMode (handleSubmit_settle reply st) = inputMode st
  /\ isLoading (handleSubmit_settle reply st) = false.
Proof.
  unfold handleSubmit_settle.
  destruct (try_block reply); repeat split; reflexivity.
Qed.

Lemma initial_invariant : resume_invariant initial.
Proof. split; [reflexivity|]. simpl. discriminate. Qed.

Lemma handle_invariant (ev : Event) (st : State) :
  enabled st ev = true ->
  resume_invariant st -> resume_invariant (handle URL_hostname ev st).
Proof.
  unfold resume_invariant. intros En [Hm Hf].
  destruct ev as [| |value|file|value|value| |reply]; cbn [handle].
  - split; [reflexivity|]. simpl. discriminate.
  - split; [reflexivity|]. simpl. exact Hf.
  - unfold enabled in En. destruct (inputMode st) eqn:Em; [|discriminate].
    unfold changeResumeText, setFormData. cbn [inputMode formData resumeFile].
    rewrite Em. split; assumption.
  - unfold enabled in En. destruct (inputMode st) eqn:Em; [discriminate|].
    destruct file as [f|]; cbn [handleFileChange].
    + destruct (array_includes validTypes (type f)) eqn:Ev; cbn [negb].
      * unfold setErrors, setFormData.
        cbn [inputMode formData resumeFile resumeText]. rewrite Em.
        split; [reflexivity|]. intros g Hg. injection Hg as <-. exact Ev.
      * unfold setErrors. cbn [inputMode formData]. rewrite Em.
        split; assumption.
    + rewrite Em. split; assumption.
  - unfold changeDesiredJobDescription, setFormData.
    cbn [inputMode formData resumeFile resumeText]. split; assumption.
  - unfold changeCompanyJobsUrl, setFormData.
    cbn [inputMode formData resumeFile resumeText]. split; assumption.
  - destruct (handleSubmit_frame st) as [-> ->]. split; assumption.
  - destruct (handleSubmit_settle_frame reply st) as (-> & -> & _).
    split; assumption.
Qed.

Lemma run_invariant (evs : list Event) (st st' : State) :
  resume_invariant st -> run URL_hostname evs st = Some st' ->
  resume_invariant st'.
Proof.
  revert st. induction evs as [|ev evs IH]; intros st Hinv Hrun; simpl in Hrun.
  - injection Hrun as <-. exact Hinv.
  - destruct (enabled st ev) eqn:En; [|discriminate].
    apply (IH (handle URL_hostname ev st)); [|exact Hrun].
    apply handle_invariant; assumption.
Qed.

Lemma reachable_invariant (st : State) :
  reachable URL_hostname st -> resume_invariant st.
Proof.
  intros [evs Hrun]. exact (run_invariant evs initial st initial_invariant Hrun).
Qed.

Lemma check_resume_frame (fd : FormData) (e : FormErrors) :
  Errors.desiredJobDescription (check_resume fd e) = Errors.desiredJobDescription e
  /\ Errors.companyJobsUrl (check_resume fd e) = Errors.companyJobsUrl e
  /\ Errors.submit (check_resume fd e) = Errors.submit e.
Proof. unfold check_resume. destruct (_ && _); repeat split. Qed.

Lemma check_desiredJobDescription_frame (fd : FormData) (e : FormErrors) :
  Errors.resume (check_desiredJobDescription fd e) = Errors.resume e
  /\ Errors.companyJobsUrl (check_desiredJobDescription fd e) = Errors.companyJobsUrl e
  /\ Errors.submit (check_desiredJobDescription fd e) = Errors.submit e.
Proof. unfold check_desiredJobDescription. destruct (negb _); repeat split. Qed.

Lemma check_companyJobsUrl_frame (fd : FormData) (e : FormErrors) :
  Errors.resume (check_companyJobsUrl URL_hostname fd e) = Errors.resume e
  /\ Errors.desiredJobDescription (check_companyJobsUrl URL_hostname fd e)
     = Errors.desiredJobDescription e
  /\ Errors.submit (check_companyJobsUrl URL_hostname fd e) = Errors.submit e.
Proof.
  unfold check_companyJobsUrl.
  destruct (negb (str_truthy _)); [repeat split|].
  destruct (URL_hostname _); [destruct (negb _)|]; repeat split.
Qed.

(** The three keys of [newErrors], each by its own check. *)
Lemma validateForm_fields (fd : FormData) :
  let e := fst (validateForm URL_hostname fd) in
  Errors.resume e = Errors.resume (check_resume fd Errors.empty)
  /\ Errors.desiredJobDescription e
     = Errors.desiredJobDescription (check_desiredJobDescription fd Errors.empty)
  /\ Errors.companyJobsUrl e
     = Errors.companyJobsUrl (check_companyJobsUrl URL_hostname fd Errors.empty)
  /\ Errors.submit e = None.
Proof.
  cbv zeta. unfold validateForm. cbn [fst].
  set (e1 := check_resume fd Errors.empty).
  set (e2 := check_desiredJobDescription fd e1).
  destruct (check_companyJobsUrl_frame fd e2) as (R3 & D3 & S3).
  destruct (check_desiredJobDescription_frame fd e1) as (R2 & U2 & S2).
  destruct (check_resume_frame fd Errors.empty) as (D1 & U1 & S1).
  rewrite R3, D3, S3. subst e2. rewrite R2, S2. subst e1. rewrite S1.
  repeat split.
  - unfold check_desiredJobDescription.
    destruct (negb _); [reflexivity|]. cbn. exact D1.
  - unfold check_companyJobsUrl.
    destruct (negb (str_truthy _)); [reflexivity|].
    destruct (URL_hostname _); [destruct (negb _)|]; try reflexivity.
    rewrite U2. exact U1.
Qed.

Lemma validateForm_passes (fd : FormData) :
  snd (validateForm URL_hostname fd) = true
  <-> Errors.resume (fst (validateForm URL_hostname fd)) = None
      /\ Errors.desiredJobDescription (fst (validateForm URL_hostname fd)) = None
      /\ Errors.companyJobsUrl (fst (validateForm URL_hostname fd)) = None.
Proof.
  pose proof (validateForm_fields fd) as (_ & _ & _ & S). cbv zeta in S.
  change (snd (validateForm URL_hostname fd))
    with (Nat.eqb (Errors.keys_length (fst (validateForm URL_hostname fd))) 0).
  unfold Errors.keys_length. rewrite S.
  destruct (Errors.resume _), (Errors.desiredJobDescription _),
    (Errors.companyJobsUrl _); simpl; split;
    try discriminate; try tauto;
    intros (A & B & C); discriminate.
Qed.

Lemma validateForm_resume (fd : FormData) :
  Errors.resume (fst (validateForm URL_hostname fd)) = None
  <-> resumeText fd <> [] \/ resumeFile fd <> None.
Proof.
  pose proof (validateForm_fields fd) as (R & _). cbv zeta in R. rewrite R.
  unfold check_resume.
  destruct (resumeText fd) as [|c t], (resumeFile fd) as [f|]; simpl; split;
    intros H; try discriminate; try reflexivity;
    try (left; discriminate); try (right; discriminate).
  destruct H as [H|H]; contradiction.
Qed.

(** *** The resume: text or file *)

(** C6.  In every state the form can reach through its handlers the resume
    text and the resume file are never both supplied, and when
    [validateForm] passes exactly one of them is. *)
Theorem resume_exactly_one (st : State) :
  reachable URL_hostname st ->
  ~ (resumeText (formData st) <> [] /\ resumeFile (formData st) <> None)
  /\ (snd (validateForm URL_hostname (formData st)) = true ->
      (resumeText (formData st) <> [] /\ resumeFile (formData st) = None)
      \/ (resumeText (formData st) = [] /\ resumeFile (formData st) <> None)).
Proof.
  intros Hr. apply reachable_invariant in Hr as [Hm _].
  assert (Hnot : ~ (resumeText (formData st) <> []
                    /\ resumeFile (formData st) <> None)).
  { intros [Ht Hf]. destruct (inputMode st); contradiction. }
  split; [exact Hnot|].
  intros Hv. apply validateForm_passes in Hv as (Hres & _).
  apply validateForm_resume in Hres.
  destruct (resumeText (formData st)) as [|c t] eqn:Et,
           (resumeFile (formData st)) as [f|] eqn:Ef.
  - right. split; [reflexivity|discriminate].
  - destruct Hres as [H|H]; contradiction.
  - exfalso. apply Hnot. split; discriminate.
  - left. split; [discriminate|reflexivity].
Qed.

(** *** The file type gate *)

(** C7.  A file whose declared content type is neither the PDF type nor
    the DOCX type leaves [formData] (all four fields), the input mode and
    the loading flag as they were and sets the resume field error; and in
    no reachable state does [resumeFile] hold a file of another type than
    these two. *)
Theorem disallowed_file_rejected (st : State) (f : File) :
  type f <> lit "application/pdf" ->
  type f <> lit "application/vnd.openxmlformats-officedocument.wordprocessingml.document" ->
  (formData (handleFileChange (Some f) st) = formData st
   /\ inputMode (handleFileChange (Some f) st) = inputMode st
   /\ isLoading (handleFileChange (Some f) st) = isLoading st
   /\ Errors.resume (errors (handleFileChange (Some f) st))
      = Some (lit "Please upload a PDF or DOCX file"))
  /\ (forall s g, reachable URL_hostname s ->
        resumeFile (formData s) = Some g ->
        g <> f
        /\ (type g = lit "application/pdf"
            \/ type g = lit "application/vnd.openxmlformats-officedocument.wordprocessingml.document")).
Proof.
  intros Hpdf Hdocx.
  assert (Hbad : array_includes validTypes (type f) = false).
  { unfold array_includes, validTypes. cbn [existsb].
    apply str_eqb_neq in Hpdf, Hdocx. rewrite Hpdf, Hdocx. reflexivity. }
  split.
  - cbn [handleFileChange]. rewrite Hbad. cbn [negb]. repeat split.
  - intros s g Hr Hg. apply reachable_invariant in Hr as [_ Hv].
    specialize (Hv g Hg).
    assert (Hty : type g = lit "application/pdf"
                  \/ type g = lit "application/vnd.openxmlformats-officedocument.wordprocessingml.document").
    { unfold array_includes, validTypes in Hv. cbn [existsb] in Hv.
      rewrite orb_false_r in Hv. apply orb_true_iff in Hv as [E|E];
        apply str_eqb_eq in E; auto. }
    split; [|exact Hty]. intros ->. destruct Hty; contradiction.
Qed.

(** *** A resume of white space only *)

(** C10.  When the resume text is non-empty, consists of white space only,
    and no file is held, [validateForm] sets no resume error (the check
    tests the string as it is); if the other two fields pass as well the
    submission goes out with that same white-space text under
    [resume_text] and without [resume_file_base64].  The desired-job check
    trims first: the same string in that field is rejected. *)
Theorem whitespace_resume_accepted (fd : FormData) :
  resumeText fd <> [] ->
  Forall (fun c => is_white_space c = true) (resumeText fd) ->
  resumeFile fd = None ->
  Errors.resume (fst (validateForm URL_hostname fd)) = None
  /\ (Errors.desiredJobDescription (fst (validateForm URL_hostname fd)) = None ->
      Errors.companyJobsUrl (fst (validateForm URL_hostname fd)) = None ->
      forall st, formData st = fd ->
        handleSubmit URL_hostname st
        = (setErrors (fun _ => Errors.empty) (setIsLoading true st),
           Some [(lit "desired_job_description", Str (desiredJobDescription fd));
                 (lit "company_jobs_url", Str (companyJobsUrl fd));
                 (lit "resume_text", Str (resumeText fd))]))
  /\ (forall fd', desiredJobDescription fd' = resumeText fd ->
        Errors.desiredJobDescription (fst (validateForm URL_hostname fd'))
        = Some (lit "Please describe your desired job")).
Proof.
  intros Hne Hws Hfile.
  assert (Hres : Errors.resume (fst (validateForm URL_hostname fd)) = None).
  { apply validateForm_resume. left. exact Hne. }
  split; [exact Hres|]. split.
  - intros Hd Hu st Hst.
    assert (Hv : snd (validateForm URL_hostname fd) = true).
    { apply validateForm_passes. auto. }
    unfold handleSubmit. rewrite Hst.
    destruct (validateForm URL_hostname fd) as [newErrors valid].
    cbn [snd] in Hv. subst valid. cbn [negb].
    unfold requestBody. rewrite Hfile. reflexivity.
  - intros fd' Hd.
    pose proof (validateForm_fields fd') as (_ & D & _). cbv zeta in D.
    rewrite D. unfold check_desiredJobDescription. rewrite Hd.
    apply trim_nil in Hws. rewrite Hws. reflexivity.
Qed.

End Reachability.

(** *** Error responses *)

(** C3, as stated, fails: a non-success response whose body is not JSON
    (here the plain text of a gateway error page) surfaces neither the
    fallback message nor the other fixed message of the handler, but the
    text of the engine's own syntax error. *)
Lemma unparsable_error_body_surfaces_engine_text :
  let body := lit "Bad Gateway" in
  let st' := handleSubmit_settle (Responded false body) pending in
  JSON_parse body = None
  /\ Errors.submit (errors st') = Some (EngineText (JSON_SyntaxError body))
  /\ Errors.submit (errors st') <> Some (Text (lit "Failed to get recommendations"))
  /\ Errors.submit (errors st')
     <> Some (Text (lit "An error occurred. Please try again.")).
Proof.
  cbv zeta.
  assert (E : Errors.submit (errors (handleSubmit_settle
                (Responded false (lit "Bad Gateway")) pending))
              = Some (EngineText (JSON_SyntaxError (lit "Bad Gateway"))))
    by (vm_compute; reflexivity).
  split; [vm_compute; reflexivity|].
  split; [exact E|].
  rewrite E. split; discriminate.
Qed.

(** C3, amended.  After a non-success response the form data and the
    input mode are as before, the loading flag is off and the submit action
    is enabled again, and [errors] holds a submit message and nothing else.
    When the body parses and [detail.message] is present and truthy, the
    message is that value (the string itself when it is a string); when the
    body parses to a value other than null and [detail] or its [message] is
    absent or falsy, it is the fallback [Failed to get recommendations];
    when the body is not JSON, it is the text of the syntax error thrown by
    the parser. *)
Theorem error_response_message (st : State) (body : jsstring) :
  let st' := handleSubmit_settle (Responded false body) st in
  (formData st' = formData st
   /\ inputMode st' = inputMode st
   /\ isLoading st' = false
   /\ enabled st' Submit = true)
  /\ (exists message,
        errors st' = {| Errors.resume := None;
                        Errors.desiredJobDescription := None;
                        Errors.companyJobsUrl := None;
                        Errors.submit := Some message |})
  /\ (forall errorData detail s,
        JSON_parse body = Some errorData ->
        get errorData (lit "detail") = Normal detail ->
        get detail (lit "message") = Normal (JStr s) ->
        s <> [] ->
        Errors.submit (errors st') = Some (Text s))
  /\ (forall errorData message,
        JSON_parse body = Some errorData ->
        detail_message errorData = Normal message ->
        Errors.submit (errors st')
        = Some (if truthy message then error_message message
                else Text (lit "Failed to get recommendations")))
  /\ (forall errorData detail,
        JSON_parse body = Some errorData ->
        get errorData (lit "detail") = Normal detail ->
        detail = JUndefined \/ detail = JNull
        \/ get detail (lit "message") = Normal JUndefined ->
        Errors.submit (errors st')
        = Some (Text (lit "Failed to get recommendations")))
  /\ (JSON_parse body = None ->
      Errors.submit (errors st') = Some (EngineText (JSON_SyntaxError body))).
Proof.
  cbv zeta.
  assert (Hgen : forall errorData message,
            JSON_parse body = Some errorData ->
            detail_message errorData = Normal message ->
            Errors.submit (errors (handleSubmit_settle (Responded false body) st))
            = Some (if truthy message then error_message message
                    else Text (lit "Failed to get recommendations"))).
  { intros errorData message Hp Hm.
    unfold handleSubmit_settle, try_block, response_json.
    rewrite Hp. cbn [of_completion]. rewrite Hm. reflexivity. }
  split; [|split; [|split; [|split; [|split]]]].
  - destruct (handleSubmit_settle_frame (Responded false body) st)
      as (F & M & L).
    unfold enabled. rewrite L. repeat split; assumption.
  - unfold handleSubmit_settle, try_block, response_json.
    destruct (JSON_parse body) as [errorData|]; cbn [of_completion].
    + destruct (detail_message errorData) as [message|err];
        cbn [of_completion setErrors setIsLoading errors]; eauto.
    + cbn [setErrors setIsLoading errors]. eauto.
  - intros errorData detail s Hp Hd Hs Hne.
    assert (Hm : detail_message errorData = Normal (JStr s)).
    { unfold detail_message. rewrite Hd. cbn [bind].
      unfold get_optional. destruct detail; try exact Hs; discriminate Hs. }
    rewrite (Hgen _ _ Hp Hm). cbn [truthy error_message].
    destruct s; [contradiction|reflexivity].
  - exact Hgen.
  - intros errorData detail Hp Hd Habs.
    assert (Hm : detail_message errorData = Normal JUndefined).
    { unfold detail_message. rewrite Hd. cbn [bind].
      destruct Habs as [->|[->|Hs]]; try reflexivity.
      unfold get_optional. destruct detail; try exact Hs; reflexivity. }
    rewrite (Hgen _ _ Hp Hm). reflexivity.
  - intros Hp.
    unfold handleSubmit_settle, try_block, response_json.
    rewrite Hp. reflexivity.
Qed.

(** The error body of the service, and bodies without a message. *)
Example error_response_examples :
  map (fun body =>
         Errors.submit (errors (handleSubmit_settle (Responded false body) pending)))
      [json_lit "{'detail': {'message': 'Unsupported job board'}}";
       json_lit "{'detail': 'Not Found'}";
       json_lit "{'detail': {'message': ''}}";
       json_lit "{}";
       json_lit "null"]
  = [Some (Text (lit "Unsupported job board"));
     Some (Text (lit "Failed to get recommendations"));
     Some (Text (lit "Failed to get recommendations"));
     Some (Text (lit "Failed to get recommendations"));
     Some (EngineText (TypeError_null_read (lit "detail")))].
Proof. vm_compute. reflexivity. Qed.

(** *** The company jobs URL *)

Section UrlRule.

Variable URL_hostname : jsstring -> option jsstring.

(** The URL parser finds no scheme in a string of white space only: the
    constructor throws on it. *)
Hypothesis blank_is_unparsable :
  forall s, trim s = [] -> URL_hostname s = None.

(** C5.  [validateForm] sets a [companyJobsUrl] error exactly when the
    string is empty after trimming, or the URL constructor throws on it, or
    it parses and its hostname contains none of greenhouse.io, lever.co and
    myworkdayjobs.com; a string that parses with a hostname containing one
    of the three gets no such error. *)
Theorem companyJobsUrl_rule (fd : FormData) :
  (Errors.companyJobsUrl (fst (validateForm URL_hostname fd)) <> None
   <-> trim (companyJobsUrl fd) = []
       \/ URL_hostname (companyJobsUrl fd) = None
       \/ exists hostname,
            URL_hostname (companyJobsUrl fd) = Some hostname
            /\ includes hostname (lit "greenhouse.io") = false
            /\ includes hostname (lit "lever.co") = false
            /\ includes hostname (lit "myworkdayjobs.com") = false)
  /\ (forall hostname,
        URL_hostname (companyJobsUrl fd) = Some hostname ->
        includes hostname (lit "greenhouse.io") = true
        \/ includes hostname (lit "lever.co") = true
        \/ includes hostname (lit "myworkdayjobs.com") = true ->
        Errors.companyJobsUrl (fst (validateForm URL_hostname fd)) = None).
Proof.
  pose proof (validateForm_fields URL_hostname fd) as (_ & _ & U & _).
  cbv zeta in U. rewrite U. clear U.
  unfold check_companyJobsUrl, isSupported.
  destruct (trim (companyJobsUrl fd)) as [|c t] eqn:Et.
  - cbn [str_truthy negb]. split.
    + split; [auto|discriminate].
    + intros hostname Hh _. rewrite (blank_is_unparsable _ Et) in Hh.
      discriminate.
  - cbn [str_truthy negb].
    destruct (URL_hostname (companyJobsUrl fd)) as [h|] eqn:Eh.
    + destruct (includes h (lit "greenhouse.io")) eqn:G,
               (includes h (lit "lever.co")) eqn:L,
               (includes h (lit "myworkdayjobs.com")) eqn:W;
        cbn [orb negb];
        (split;
         [ split;
           [ intros H; first [ exfalso; apply H; reflexivity
                             | right; right; exists h; auto ]
           | intros [H|[H|(h' & H & G' & L' & W')]];
             first [ discriminate
                   | injection H as <-; congruence ] ]
         | intros h' H Hany; injection H as <-;
           first [ reflexivity
                 | destruct Hany as [X|[X|X]]; congruence ] ]).
    + split.
      * split; [auto|discriminate].
      * intros h Hh. discriminate.
Qed.

End UrlRule.

Lemma URL_hostname_sample_blank (s : jsstring) :
  trim s = [] -> URL_hostname_sample s = None.
Proof.
  intros H. unfold URL_hostname_sample.
  destruct (str_eqb s (lit "https://boards.greenhouse.io/acme")) eqn:E1.
  { apply str_eqb_eq in E1. subst s. vm_compute in H. discriminate. }
  destruct (str_eqb s (lit "https://example.com/careers")) eqn:E2.
  { apply str_eqb_eq in E2. subst s. vm_compute in H. discriminate. }
  reflexivity.
Qed.

(** Witnesses, on the sample platform table. *)

Lemma companyJobsUrl_rule_witness :
  Errors.companyJobsUrl (fst (validateForm URL_hostname_sample sample_form)) = None.
Proof.
  apply (proj2 (companyJobsUrl_rule URL_hostname_sample
                  URL_hostname_sample_blank sample_form)
               (lit "boards.greenhouse.io")).
  - reflexivity.
  - left. vm_compute. reflexivity.
Defined.

Lemma resume_exactly_one_witness :
  ~ (resumeText (formData typed_resume) <> []
     /\ resumeFile (formData typed_resume) <> None)
  /\ (snd (validateForm URL_hostname_sample (formData typed_resume)) = true ->
      (resumeText (formData typed_resume) <> []
       /\ resumeFile (formData typed_resume) = None)
      \/ (resumeText (formData typed_resume) = []
          /\ resumeFile (formData typed_resume) <> None)).
Proof.
  apply (resume_exactly_one URL_hostname_sample typed_resume).
  exists [ChangeResumeText (lit "Analyst, five years of SQL")].
  reflexivity.
Defined.

Lemma disallowed_file_rejected_witness :
  formData (handleFileChange (Some sample_png) typed_resume) = formData typed_resume
  /\ Errors.resume (errors (handleFileChange (Some sample_png) typed_resume))
     = Some (lit "Please upload a PDF or DOCX file").
Proof.
  assert (Hpdf : type sample_png <> lit "application/pdf") by discriminate.
  assert (Hdocx : type sample_png <>
            lit "application/vnd.openxmlformats-officedocument.wordprocessingml.document")
    by discriminate.
  pose proof (disallowed_file_rejected URL_hostname_sample typed_resume
                sample_png Hpdf Hdocx) as [(Hfd & _ & _ & Herr) _].
  split; assumption.
Defined.

Lemma whitespace_resume_accepted_witness :
  Errors.resume (fst (validateForm URL_hostname_sample sample_form)) = None
  /\ handleSubmit URL_hostname_sample filled
     = (pending,
        Some [(lit "desired_job_description", Str (lit "data analyst intern, SQL, remote"));
              (lit "company_jobs_url", Str (lit "https://boards.greenhouse.io/acme"));
              (lit "resume_text", Str (lit "   "))]).
Proof.
  assert (Hne : resumeText sample_form <> []) by discriminate.
  assert (Hws : Forall (fun c => is_white_space c = true) (resumeText sample_form)).
  { repeat constructor. }
  pose proof (whitespace_resume_accepted URL_hostname_sample sample_form
                Hne Hws eq_refl) as (Hres & Hsub & _).
  split; [exact Hres|].
  apply (Hsub eq_refl eq_refl filled eq_refl).
Defined.

End UploadFormFacts.

(* ================================================================== *)
(** ** Further properties of the submission component                  *)
(* ================================================================== *)

Module SubmissionFacts.
Import UploadForm UploadFormFacts.

(** *** Substrings *)

Lemma startsWith_spec (s sub : jsstring) :
  startsWith s sub = true <-> exists post, s = sub ++ post.
Proof.
  revert s. induction sub as [|x sub IH]; intros [|y s]; simpl.
  - split; [intros _; exists []; reflexivity|reflexivity].
  - split; [intros _; exists (y :: s); reflexivity|reflexivity].
  - split; [discriminate|]. intros [post H]. discriminate.
  - rewrite andb_true_iff, N.eqb_eq, IH. split.
    + intros [-> [post ->]]. exists post. reflexivity.
    + intros [post H]. injection H as -> ->. split; [reflexivity|eauto].
Qed.

Lemma includes_spec (s sub : jsstring) :
  includes s sub = true <-> exists pre post, s = pre ++ sub ++ post.
Proof.
  induction s as [|c s IH].
  - cbn [includes]. rewrite orb_false_r, startsWith_spec. split.
    + intros [post H]. exists [], post. exact H.
    + intros (pre & post & H). destruct pre; [exists post; exact H|discriminate].
  - cbn [includes]. rewrite orb_true_iff, startsWith_spec, IH. split.
    + intros [[post H]|(pre & post & H)].
      * exists [], post. exact H.
      * exists (c :: pre), post. rewrite H. reflexivity.
    + intros (pre & post & H). destruct pre as [|d pre].
      * left. exists post. exact H.
      * right. injection H as _ H. eauto.
Qed.

(** X4.  The host test is a pure substring test: a hostname passes exactly when
    one of the three board names occurs somewhere in it, whatever stands
    before and after (so a host that only embeds a board name passes as
    well as a subdomain of the board does). *)
Theorem isSupported_substring (hostname : jsstring) :
  isSupported hostname = true
  <-> exists board pre post,
        In board [lit "greenhouse.io"; lit "lever.co"; lit "myworkdayjobs.com"]
        /\ hostname = pre ++ board ++ post.
Proof.
  unfold isSupported. rewrite !orb_true_iff, !includes_spec. split.
  - intros [[(pre & post & H)|(pre & post & H)]|(pre & post & H)];
      eexists; exists pre, post; (split; [|exact H]); simpl; auto.
  - intros (board & pre & post & Hin & H). simpl in Hin.
    destruct Hin as [<-|[<-|[<-|[]]]]; eauto.
Qed.

(** *** Validation *)

Lemma trim_nil_forallb (s : jsstring) :
  str_truthy (trim s) = negb (forallb is_white_space s).
Proof.
  destruct (forallb is_white_space s) eqn:E.
  - assert (H : trim s = []).
    { apply trim_nil. apply Forall_forall.
      exact (proj1 (forallb_forall _ _) E). }
    rewrite H. reflexivity.
  - destruct (trim s) eqn:T; [|reflexivity].
    apply trim_nil in T. rewrite Forall_forall in T.
    rewrite (proj2 (forallb_forall _ _) T) in E. discriminate.
Qed.

Section Validation.

Variable URL_hostname : jsstring -> option jsstring.

Lemma field_errors_decided (fd : FormData) :
  let e := fst (validateForm URL_hostname fd) in
  Errors.resume e
  = match resumeText fd, resumeFile fd with
    | [], None => Some (lit "Please paste your resume or upload a file")
    | _, _ => None
    end
  /\ Errors.desiredJobDescription e
     = (if forallb is_white_space (desiredJobDescription fd)
        then Some (lit "Please describe your desired job") else None)
  /\ Errors.companyJobsUrl e
     = (if forallb is_white_space (companyJobsUrl fd)
        then Some (lit "Please enter a company jobs URL")
        else match URL_hostname (companyJobsUrl fd) with
             | None => Some (lit "Please enter a valid URL")
             | Some hostname =>
                 if isSupported hostname then None
                 else Some (lit "Currently only Greenhouse, Lever, and Workday URLs are supported")
             end)
  /\ Errors.submit e = None.
Proof.
  cbv zeta.
  destruct (validateForm_fields URL_hostname fd) as (R & D & U & S).
  cbv zeta in R, D, U, S. rewrite R, D, U, S.
  split; [|split; [|split; [|reflexivity]]].
  - unfold check_resume.
    destruct (resumeText fd), (resumeFile fd); reflexivity.
  - unfold check_desiredJobDescription. rewrite trim_nil_forallb, negb_involutive.
    destruct (forallb _ _); reflexivity.
  - unfold check_companyJobsUrl. rewrite trim_nil_forallb, negb_involutive.
    destruct (forallb _ _); [reflexivity|].
    destruct (URL_hostname _) as [h|]; [|reflexivity].
    destruct (isSupported h); reflexivity.
Qed.

(** X1.  [validateForm] reports every failing field at once, each with its own
    message and decided by that field alone: the resume when the text is
    empty and no file is held; the desired job when it is empty or white
    space only; the URL with one of three messages, for a blank string, for
    a string the URL constructor rejects, and for a host outside the three
    boards.  It never sets the submit message, and it returns true exactly
    when it reports nothing. *)
Theorem validateForm_reports (fd : FormData) :
  let e := fst (validateForm URL_hostname fd) in
  Errors.resume e
  = match resumeText fd, resumeFile fd with
    | [], None => Some (lit "Please paste your resume or upload a file")
    | _, _ => None
    end
  /\ Errors.desiredJobDescription e
     = (if forallb is_white_space (desiredJobDescription fd)
        then Some (lit "Please describe your desired job") else None)
  /\ Errors.companyJobsUrl e
     = (if forallb is_white_space (companyJobsUrl fd)
        then Some (lit "Please enter a company jobs URL")
        else match URL_hostname (companyJobsUrl fd) with
             | None => Some (lit "Please enter a valid URL")
             | Some hostname =>
                 if isSupported hostname then None
                 else Some (lit "Currently only Greenhouse, Lever, and Workday URLs are supported")
             end)
  /\ Errors.submit e = None
  /\ (snd (validateForm URL_hostname fd) = true <-> e = Errors.empty).
Proof.
  cbv zeta.
  destruct (field_errors_decided fd) as (R & D & U & S). cbv zeta in R, D, U, S.
  split; [exact R|]. split; [exact D|]. split; [exact U|]. split; [exact S|].
  rewrite validateForm_passes. clear R D U.
  destruct (fst (validateForm URL_hostname fd)) as [r d u sb].
  cbn [Errors.resume Errors.desiredJobDescription Errors.companyJobsUrl
       Errors.submit] in *.
  unfold Errors.empty. split.
  - intros (-> & -> & ->). rewrite S. reflexivity.
  - intros H. injection H as -> -> -> _. auto.
Qed.


(** X3.  A request that goes out carries the two text fields as typed and
    exactly one resume entry: the file when one is held, otherwise the
    resume text, which is then not empty.  Its four possible keys never
    repeat. *)
Theorem sent_request_has_resume (st : State) (body : RequestBody) :
  snd (handleSubmit URL_hostname st) = Some body ->
  exists resume_entry,
    body = [(lit "desired_job_description", Str (desiredJobDescription (formData st)));
            (lit "company_jobs_url", Str (companyJobsUrl (formData st)));
            resume_entry]
    /\ match resumeFile (formData st) with
       | Some f => resume_entry = (lit "resume_file_base64", Base64 f)
       | None => resume_entry = (lit "resume_text", Str (resumeText (formData st)))
                 /\ resumeText (formData st) <> []
       end
    /\ NoDup (map fst body).
Proof.
  intros H.
  pose proof (validateForm_passes URL_hostname (formData st)) as P.
  pose proof (validateForm_resume URL_hostname (formData st)) as R.
  unfold handleSubmit in H.
  destruct (validateForm URL_hostname (formData st)) as [newErrors valid].
  destruct valid; cbn [negb snd] in H; [|discriminate].
  assert (Hr : resumeText (formData st) <> [] \/ resumeFile (formData st) <> None).
  { apply R. apply P. reflexivity. }
  injection H as <-. unfold requestBody.
  destruct (resumeFile (formData st)) as [f|] eqn:Ef.
  - eexists. split; [reflexivity|]. split; [reflexivity|].
    cbn [map fst app]. repeat constructor; simpl; intuition discriminate.
  - eexists. split; [reflexivity|]. split.
    + split; [reflexivity|]. destruct Hr as [Hr|Hr]; [exact Hr|contradiction].
    + cbn [map fst app]. repeat constructor; simpl; intuition discriminate.
Qed.

End Validation.

(** *** Runs of the form *)

Section Runs.

Variable URL_hostname : jsstring -> option jsstring.





(** X6.  Selecting a file of an accepted type makes it the resume: the text is
    emptied and the resume check passes whatever was typed before, and the
    next request, if the other fields let it out, carries that file under
    [resume_file_base64] and no [resume_text]. *)
Theorem accepted_file_is_sent (st : State) (f : File) :
  type f = lit "application/pdf"
  \/ type f = lit "application/vnd.openxmlformats-officedocument.wordprocessingml.document" ->
  resumeFile (formData (handleFileChange (Some f) st)) = Some f
  /\ resumeText (formData (handleFileChange (Some f) st)) = []
  /\ Errors.resume (errors (handleFileChange (Some f) st)) = None
  /\ Errors.resume
       (fst (validateForm URL_hostname (formData (handleFileChange (Some f) st))))
     = None
  /\ forall body,
       snd (handleSubmit URL_hostname (handleFileChange (Some f) st)) = Some body ->
       body = [(lit "desired_job_description", Str (desiredJobDescription (formData st)));
               (lit "company_jobs_url", Str (companyJobsUrl (formData st)));
               (lit "resume_file_base64", Base64 f)].
Proof.
  intros Hty.
  assert (Hok : array_includes validTypes (type f) = true).
  { unfold array_includes, validTypes. cbn [existsb].
    destruct Hty as [-> | ->]; rewrite str_eqb_refl;
      [reflexivity|apply orb_true_r]. }
  cbn [handleFileChange]. rewrite Hok. cbn [negb].
  split; [reflexivity|]. split; [reflexivity|]. split; [reflexivity|]. split.
  - apply validateForm_resume. right. discriminate.
  - intros body. unfold handleSubmit.
    destruct (validateForm URL_hostname _) as [e valid].
    destruct valid; cbn [negb snd]; [|discriminate].
    intros H. injection H as <-. reflexivity.
Qed.

(** X8.  In a reachable state, a click on the button of the other mode leaves
    the form without a resume: neither text nor file is held, the resume
    check fails, and a submit sends nothing. *)
Theorem switching_mode_discards_resume (st : State) :
  reachable URL_hostname st ->
  let st' := match inputMode st with
             | paste => clickUploadFile st
             | upload => clickPasteText st
             end in
  resumeText (formData st') = []
  /\ resumeFile (formData st') = None
  /\ Errors.resume (fst (validateForm URL_hostname (formData st')))
     = Some (lit "Please paste your resume or upload a file")
  /\ snd (handleSubmit URL_hostname st') = None.
Proof.
  intros Hr. apply reachable_invariant in Hr as [Hm _]. cbv zeta.
  set (st' := match inputMode st with
              | paste => clickUploadFile st
              | upload => clickPasteText st
              end).
  assert (Ht : resumeText (formData st') = []).
  { subst st'. destruct (inputMode st); [reflexivity|exact Hm]. }
  assert (Hf : resumeFile (formData st') = None).
  { subst st'. destruct (inputMode st); [exact Hm|reflexivity]. }
  assert (He : Errors.resume (fst (validateForm URL_hostname (formData st')))
               = Some (lit "Please paste your resume or upload a file")).
  { destruct (field_errors_decided URL_hostname (formData st')) as (R & _).
    cbv zeta in R. rewrite R, Ht, Hf. reflexivity. }
  split; [exact Ht|]. split; [exact Hf|]. split; [exact He|].
  pose proof (validateForm_passes URL_hostname (formData st')) as P.
  unfold handleSubmit.
  destruct (validateForm URL_hostname (formData st')) as [e valid].
  cbn [fst snd] in *.
  destruct valid; [|reflexivity].
  destruct P as [P _]. destruct (P eq_refl) as (R & _). congruence.
Qed.

(** X7.  A rejected file does not displace the file selected before: the form
    keeps the earlier file next to the type message, the resume check still
    passes, and the next request, which clears the message, carries the
    earlier file. *)
Theorem rejected_file_keeps_previous_file (st : State) (f g : File) :
  array_includes validTypes (type f) = true ->
  array_includes validTypes (type g) = false ->
  let st' := handleFileChange (Some g) (handleFileChange (Some f) st) in
  resumeFile (formData st') = Some f
  /\ Errors.resume (errors st') = Some (lit "Please upload a PDF or DOCX file")
  /\ Errors.resume (fst (validateForm URL_hostname (formData st'))) = None
  /\ forall body,
       snd (handleSubmit URL_hostname st') = Some body ->
       In (lit "resume_file_base64", Base64 f) body
       /\ errors (fst (handleSubmit URL_hostname st')) = Errors.empty.
Proof.
  intros Hf Hg. cbv zeta. cbn [handleFileChange]. rewrite Hf, Hg. cbn [negb].
  split; [reflexivity|]. split; [reflexivity|]. split.
  - apply validateForm_resume. right. discriminate.
  - intros body. unfold handleSubmit.
    destruct (validateForm URL_hostname _) as [e valid].
    destruct valid; cbn [negb fst snd]; [|discriminate].
    intros H. injection H as <-. split; [|reflexivity].
    unfold requestBody. cbn. auto.
Qed.

Lemma idle_messages_invariant (evs : list Event) (st st' : State) :
  (isLoading st = true ->
   Errors.desiredJobDescription (errors st) = None
   /\ Errors.companyJobsUrl (errors st) = None
   /\ Errors.submit (errors st) = None) ->
  run URL_hostname evs st = Some st' ->
  isLoading st' = true ->
  Errors.desiredJobDescription (errors st') = None
  /\ Errors.companyJobsUrl (errors st') = None
  /\ Errors.submit (errors st') = None.
Proof.
  revert st. induction evs as [|ev evs IH]; intros st Hinv Hrun.
  - simpl in Hrun. injection Hrun as <-. exact Hinv.
  - cbn [run] in Hrun. destruct (enabled st ev) eqn:En; [|discriminate].
    apply (IH (handle URL_hostname ev st)); [|exact Hrun].
    destruct ev as [| |value|file|value|value| |reply]; cbn [handle];
      try exact Hinv.
    + destruct file as [f|]; cbn [handleFileChange]; [|exact Hinv].
      destruct (negb _); exact Hinv.
    + cbn [enabled] in En. apply negb_true_iff in En.
      unfold handleSubmit.
      destruct (validateForm URL_hostname (formData st)) as [e valid].
      destruct valid; cbn [negb fst].
      * intros _. repeat split.
      * cbn [setErrors isLoading]. intros L. congruence.
    + destruct (handleSubmit_settle_frame reply st) as (_ & _ & L).
      intros L'. congruence.
Qed.

(** X9.  While a request is pending the form shows no submit message and no
    message for the desired job or the URL; the only message that can
    appear meanwhile is the resume one. *)
Theorem pending_form_shows_no_stale_message (st : State) :
  reachable URL_hostname st ->
  isLoading st = true ->
  Errors.desiredJobDescription (errors st) = None
  /\ Errors.companyJobsUrl (errors st) = None
  /\ Errors.submit (errors st) = None.
Proof.
  intros [evs Hrun]. apply (idle_messages_invariant evs initial st); [|exact Hrun].
  simpl. discriminate.
Qed.

(** X10.  Typing into a field or switching the mode never changes the messages
    on display or the loading flag: a field error stays until the next
    submit, even after its field was corrected. *)
Theorem edits_keep_errors (evs : list Event) (st st' : State) :
  forallb is_edit evs = true ->
  run URL_hostname evs st = Some st' ->
  errors st' = errors st /\ isLoading st' = isLoading st.
Proof.
  revert st. induction evs as [|ev evs IH]; intros st Hed Hrun.
  - simpl in Hrun. injection Hrun as <-. split; reflexivity.
  - cbn [forallb] in Hed. apply andb_true_iff in Hed as [Hev Hed].
    cbn [run] in Hrun. destruct (enabled st ev); [|discriminate].
    destruct (IH _ Hed Hrun) as [-> ->].
    destruct ev; try discriminate Hev; split; reflexivity.
Qed.

End Runs.

(** *** Replies *)

(** X11.  A success response is not inspected beyond parsing: when the body is
    JSON other than null, whatever stands under [results] (nothing, for a
    body that is not an object or has no such key) is stored and the
    messages stay as they are; when it is not JSON or is null, nothing is
    stored and the engine's error text becomes the submit message.  The
    loading flag is lowered and the form data kept in every case. *)
Theorem success_response_outcome (st : State) (body : jsstring) :
  let st' := handleSubmit_settle (Responded true body) st in
  isLoading st' = false
  /\ formData st' = formData st
  /\ match JSON_parse body with
     | None =>
         try_block (Responded true body) = Caught (Engine (JSON_SyntaxError body))
         /\ errors st'
            = {| Errors.resume := None; Errors.desiredJobDescription := None;
                 Errors.companyJobsUrl := None;
                 Errors.submit := Some (EngineText (JSON_SyntaxError body)) |}
     | Some JNull | Some JUndefined =>
         errors st'
         = {| Errors.resume := None; Errors.desiredJobDescription := None;
              Errors.companyJobsUrl := None;
              Errors.submit :=
                Some (EngineText (TypeError_null_read (lit "results"))) |}
     | Some (JObj members) =>
         try_block (Responded true body)
         = Stored match own_property members (lit "results") with
                  | Some r => r
                  | None => JUndefined
                  end
         /\ errors st' = errors st
     | Some _ =>
         try_block (Responded true body) = Stored JUndefined
         /\ errors st' = errors st
     end.
Proof.
  cbv zeta.
  destruct (handleSubmit_settle_frame (Responded true body) st) as (F & _ & L).
  split; [exact L|]. split; [exact F|].
  unfold handleSubmit_settle, try_block, response_json.
  destruct (JSON_parse body) as [data|]; cbn [of_completion].
  - destruct data as [| |b|m e|s|l|members]; cbn [get of_completion];
      try (split; reflexivity); try reflexivity.
    destruct (own_property members (lit "results")); split; reflexivity.
  - split; reflexivity.
Qed.

(** *** Reading the uploaded file *)

Lemma split_on_without (sep : N) (s : jsstring) :
  ~ In sep s -> split_on sep s = [s].
Proof.
  induction s as [|c s IH]; intros H; simpl; [reflexivity|].
  destruct (N.eqb_spec c sep) as [->|Hne].
  - exfalso. apply H. left. reflexivity.
  - rewrite IH; [reflexivity|]. intros Hin. apply H. right. exact Hin.
Qed.

Lemma split_on_first (sep : N) (header rest : jsstring) :
  ~ In sep header ->
  split_on sep (header ++ sep :: rest) = header :: split_on sep rest.
Proof.
  induction header as [|c header IH]; intros H; simpl.
  - rewrite N.eqb_refl. reflexivity.
  - destruct (N.eqb_spec c sep) as [->|Hne].
    + exfalso. apply H. left. reflexivity.
    + rewrite IH; [reflexivity|]. intros Hin. apply H. right. exact Hin.
Qed.

(** X12.  [fileToBase64] resolves with the text between the first comma of the
    data URL and the next one, if any: the whole payload when neither the
    header nor the payload holds a comma; and with [undefined] when the
    data URL holds no comma at all. *)
Theorem fileToBase64_takes_payload (header payload : jsstring) :
  ~ In 44%N header ->
  ~ In 44%N payload ->
  fileToBase64_onload (header ++ 44%N :: payload) = Some payload
  /\ (forall rest,
        fileToBase64_onload (header ++ 44%N :: payload ++ 44%N :: rest)
        = Some payload)
  /\ fileToBase64_onload header = None.
Proof.
  intros Hh Hp. unfold fileToBase64_onload. split; [|split].
  - rewrite split_on_first by exact Hh.
    rewrite split_on_without by exact Hp. reflexivity.
  - intros rest. rewrite split_on_first by exact Hh.
    rewrite split_on_first by exact Hp. reflexivity.
  - rewrite split_on_without by exact Hh. reflexivity.
Qed.

(** Witnesses, on the sample platform table. *)

Lemma sent_request_has_resume_witness :
  exists resume_entry,
    [(lit "desired_job_description", Str (lit "data analyst intern, SQL, remote"));
     (lit "company_jobs_url", Str (lit "https://boards.greenhouse.io/acme"));
     (lit "resume_text", Str (lit "   "))]
    = [(lit "desired_job_description", Str (desiredJobDescription (formData filled)));
       (lit "company_jobs_url", Str (companyJobsUrl (formData filled)));
       resume_entry]
    /\ match resumeFile (formData filled) with
       | Some f => resume_entry = (lit "resume_file_base64", Base64 f)
       | None => resume_entry = (lit "resume_text", Str (resumeText (formData filled)))
                 /\ resumeText (formData filled) <> []
       end
    /\ NoDup (map fst
         [(lit "desired_job_description", Str (lit "data analyst intern, SQL, remote"));
          (lit "company_jobs_url", Str (lit "https://boards.greenhouse.io/acme"));
          (lit "resume_text", Str (lit "   "))]).
Proof.
  apply (sent_request_has_resume URL_hostname_sample filled). reflexivity.
Defined.


Lemma accepted_file_is_sent_witness :
  resumeFile (formData (handleFileChange (Some sample_pdf) typed_resume))
  = Some sample_pdf
  /\ resumeText (formData (handleFileChange (Some sample_pdf) typed_resume)) = [].
Proof.
  pose proof (accepted_file_is_sent URL_hostname_sample typed_resume sample_pdf
                (or_introl eq_refl)) as (Hf & Ht & _).
  split; assumption.
Defined.

Lemma switching_mode_discards_resume_witness :
  resumeText (formData (clickUploadFile typed_resume)) = []
  /\ resumeFile (formData (clickUploadFile typed_resume)) = None
  /\ Errors.resume
       (fst (validateForm URL_hostname_sample (formData (clickUploadFile typed_resume))))
     = Some (lit "Please paste your resume or upload a file")
  /\ snd (handleSubmit URL_hostname_sample (clickUploadFile typed_resume)) = None.
Proof.
  apply (switching_mode_discards_resume URL_hostname_sample typed_resume).
  exists [ChangeResumeText (lit "Analyst, five years of SQL")].
  reflexivity.
Defined.

Lemma pending_form_shows_no_stale_message_witness :
  Errors.desiredJobDescription (errors pending) = None
  /\ Errors.companyJobsUrl (errors pending) = None
  /\ Errors.submit (errors pending) = None.
Proof.
  apply (pending_form_shows_no_stale_message URL_hostname_sample pending).
  - exists [ChangeResumeText (lit "   ");
            ChangeDesiredJobDescription (lit "data analyst intern, SQL, remote");
            ChangeCompanyJobsUrl (lit "https://boards.greenhouse.io/acme");
            Submit].
    reflexivity.
  - reflexivity.
Defined.

Lemma edits_keep_errors_witness :
  errors (changeDesiredJobDescription (lit "analyst")
            (fst (handleSubmit URL_hostname_sample initial)))
  = errors (fst (handleSubmit URL_hostname_sample initial))
  /\ isLoading (changeDesiredJobDescription (lit "analyst")
                  (fst (handleSubmit URL_hostname_sample initial)))
     = isLoading (fst (handleSubmit URL_hostname_sample initial)).
Proof.
  apply (edits_keep_errors URL_hostname_sample
           [ChangeDesiredJobDescription (lit "analyst")]); reflexivity.
Defined.

Lemma rejected_file_keeps_previous_file_witness :
  resumeFile (formData (handleFileChange (Some sample_png)
                          (handleFileChange (Some sample_pdf) initial)))
  = Some sample_pdf.
Proof.
  exact (proj1 (rejected_file_keeps_previous_file URL_hostname_sample initial
                  sample_pdf sample_png eq_refl eq_refl)).
Defined.

Lemma fileToBase64_takes_payload_witness :
  fileToBase64_onload (lit "data:application/pdf;base64,JVBERg==")
  = Some (lit "JVBERg==").
Proof.
  assert (Hh : ~ In 44%N (lit "data:application/pdf;base64")).
  { vm_compute. intuition discriminate. }
  assert (Hp : ~ In 44%N (lit "JVBERg==")).
  { vm_compute. intuition discriminate. }
  exact (proj1 (fileToBase64_takes_payload _ _ Hh Hp)).
Defined.

End SubmissionFacts.

(* ================================================================== *)
(** ** Further properties of the results page                          *)
(* ================================================================== *)

Module ResultsPageFacts.
Import Results ResultsFacts.

Lemma length_is_zero (n : nat) :
  strict_equals_zero (JNum (Z.of_nat n) 0) = true <-> n = 0.
Proof.
  unfold strict_equals_zero, num_is_zero.
  rewrite andb_false_l, orb_false_r, Z.eqb_eq. lia.
Qed.

Lemma all_normal_spec {A} (l : list (Completion A)) :
  match all_normal l with
  | Normal _ => forall c, In c l -> exists a, c = Normal a
  | Throw err => In (Throw err) l
  end.
Proof.
  induction l as [|c l IH]; simpl; [intros c []|].
  destruct c as [a|err]; [|left; reflexivity].
  destruct (all_normal l) as [u|err].
  - intros c [<-|Hc]; eauto.
  - right. exact IH.
Qed.



(** X15.  One element without a readable [job.id] (null, or a value whose [job]
    is missing or null) is enough for a stored array to end in a render
    error, whatever the other elements are. *)
Theorem element_without_job_breaks_rendering
        (slot : option jsstring) (elems : list JValue) (e : JValue) :
  results (useEffect (slot_storage slot) page_initial) = JArr elems ->
  In e elems ->
  e = JNull \/ get e (lit "job") = Normal JUndefined
  \/ get e (lit "job") = Normal JNull ->
  exists err, ResultsPage slot = RenderError err.
Proof.
  intros R Hin He.
  assert (Hk : exists err, key_of e = Throw err).
  { unfold key_of. destruct He as [->|[H|H]].
    - eexists. reflexivity.
    - rewrite H. eexists. reflexivity.
    - rewrite H. eexists. reflexivity. }
  destruct Hk as [err0 Hk].
  unfold ResultsPage, ResultsPage_render.
  set (st := useEffect (slot_storage slot) page_initial) in *.
  assert (L : loading st = false) by reflexivity.
  rewrite L, R. cbn [get_length]. unfold ResultsList_any. cbn [get_length bind].
  destruct (strict_equals_zero (JNum (Z.of_nat (length elems)) 0)) eqn:Z.
  { apply length_is_zero, length_zero_iff_nil in Z. subst elems. destruct Hin. }
  pose proof (all_normal_spec (map key_of elems)) as K.
  destruct (all_normal (map key_of elems)) as [u|err]; cbn [bind].
  - destruct (K (key_of e) (in_map key_of _ _ Hin)) as [k Hk']. congruence.
  - eexists. reflexivity.
Qed.

(** *** Well-formed results *)






(** The response shown in the README, read back from the slot. *)
Example readme_result_parses :
  JSON_parse (json_lit
    "[{'job': {'id': '123', 'title': 'Data Analyst Intern', 'location': 'Remote', 'description': '...', 'apply_url': 'https://boards.greenhouse.io/acme/jobs/123', 'source': 'greenhouse'}, 'match_score': 85, 'why_matches': ['Strong SQL skills match requirements'], 'gaps': ['No experience with Tableau mentioned']}]")
  = Some (JArr [MatchResult_object
                  (with_gaps [lit "No experience with Tableau mentioned"])]).
Proof. vm_compute. reflexivity. Qed.

Lemma element_without_job_breaks_rendering_witness :
  exists err, ResultsPage (Some (lit "[{}]")) = RenderError err.
Proof.
  apply (element_without_job_breaks_rendering
           (Some (lit "[{}]")) [JObj []] (JObj [])).
  - vm_compute. reflexivity.
  - left. reflexivity.
  - right. left. reflexivity.
Defined.

End ResultsPageFacts.
